(** * Connection registry and processing pipeline of [bot.py]

    A shallow embedding of the stateful core of [src/bot.py]: the in-memory
    connection list ([connections_data], [load_connections],
    [save_connections], [remove_invalid_connection]), the permission probe
    ([check_permissions]), the three processing steps and their composition
    ([process_connected_account]), and the two event handlers
    ([handle_business_connection], [get_message]).

    Python integers are [Z], Python [str] is [string], the records kept in
    [connections_data] are a Rocq record with the dict's five keys.  Calls to
    the Telegram client are calls to an arbitrary stateful environment
    ([api]); every call and its reply is appended to a trace, so that
    statements about "attempted" calls are statements about the trace.
    Exceptions are explicit: a computation either returns or raises.

    Only subclasses of Python's [Exception] are modelled (task cancellation
    is not), and [logger.*] calls are left out: they do not touch any state
    the model has. *)

From Stdlib Require Import ZArith String Ascii.
From stdpp Require Import base tactics option list gmap strings pretty.

Local Open Scope string_scope.
Local Open Scope Z_scope.

(** ** Python helpers *)

(** [sub in s] on [str]. *)
Fixpoint py_in (sub s : string) : bool :=
  String.prefix sub s ||
  match s with
  | EmptyString => false
  | String _ s' => py_in sub s'
  end.

(** [x or default] for an optional string: [None] and [""] are falsy. *)
Definition py_or (x : option string) (default : string) : string :=
  match x with
  | None => default
  | Some EmptyString => default
  | Some s => s
  end.

Definition nl : string := String (ascii_of_nat 10) EmptyString.

(** [str(n)] for an [int]. *)
Definition str_int (n : Z) : string := pretty n.

(** ** Telegram types (the fields the code reads) *)

Record User := { User_id : Z; User_username : option string }.

Record BusinessConnection := {
  BusinessConnection_id : string;
  BusinessConnection_user : User
}.

Record Message := {
  Message_business_connection_id : string;
  Message_from_user : User
}.

Record OwnedGift := { owned_gift_id : string }.

Record StarAmount := { amount : Z }.

(** The dict stored in [connections_data]. *)
Record connection_dict := {
  user_id : Z;
  username : string;
  connection_id : string;
  business_connection_id : string;
  connected_at : string
}.

Global Instance connection_dict_eq_dec : EqDecision connection_dict.
Proof. solve_decision. Defined.

(** ** Configuration ([config.py]) *)

Record Config := {
  ADMIN_IDS : list Z;
  RECIPIENT_ID : Z;
  TRANSFER_FEE : Z
}.

(** ** Exceptions

    The argument of each constructor is [str(e)].  [TelegramBadRequest] and
    [TelegramNotFound] are the two classes [check_permissions] names; every
    other subclass of [Exception] is [OtherException]. *)
Inductive exn :=
| TelegramBadRequest (str_e : string)
| TelegramNotFound (str_e : string)
| OtherException (str_e : string).

Definition str (e : exn) : string :=
  match e with
  | TelegramBadRequest s | TelegramNotFound s | OtherException s => s
  end.

(** ** Calls to the Telegram client *)

Inductive call :=
| Request_getBusinessAccountStarBalance (business_connection_id : string)
| GetBusinessAccountGifts (connection_id : string) (exclude_unique : bool)
| ConvertGiftToStars (connection_id owned_gift_id : string)
| TransferGift (connection_id owned_gift_id : string) (new_owner_chat_id star_count : Z)
| GetBusinessAccountStarBalance (connection_id : string)
| TransferBusinessAccountStars (connection_id : string) (star_count : Z)
| SendMessage (chat_id : Z) (text : string).

Inductive value :=
| VNone
| VGifts (gifts : list OwnedGift)
| VStars (stars : StarAmount).

Inductive reply :=
| Result (v : value)
| Error (e : exn).

Definition failed (r : reply) : bool :=
  match r with Result _ => false | Error _ => true end.

(** What a computation ends with. *)
Inductive outcome (A : Type) :=
| Return (a : A)
| Raise (e : exn).
Arguments Return {A} a.
Arguments Raise {A} e.

Section Bot.

(** The environment: an arbitrary state [W] answering each call, and the
    clock read by [str(time.time())]. *)
Context {W : Type}.
Variable api : call → W → reply * W.
Variable time_time : W → string * W.
Variable config : Config.

Record state := State {
  connections_data : list connection_dict;
  world : W;
  trace : list (call * reply);
  tasks : list (string * string)
}.

Definition M (A : Type) : Type := state → outcome A * state.

Definition ret {A} (a : A) : M A := fun st => (Return a, st).

Definition raise {A} (e : exn) : M A := fun st => (Raise e, st).

Definition bind {A B} (m : M A) (k : A → M B) : M B :=
  fun st =>
    match m st with
    | (Return a, st') => k a st'
    | (Raise e, st') => (Raise e, st')
    end.

(** [try: m  except Exception as e: h e] *)
Definition try_except {A} (m : M A) (h : exn → M A) : M A :=
  fun st =>
    match m st with
    | (Return a, st') => (Return a, st')
    | (Raise e, st') => h e st'
    end.

Notation "'do' x <- c1 ; c2" := (bind c1 (fun x => c2))
  (at level 10, x name, c1 at level 100, c2 at level 200, only parsing).

(** One call to the client: ask the environment, record call and reply. *)
Definition invoke (c : call) : M value :=
  fun st =>
    let (r, w) := api c (world st) in
    let st' := State (connections_data st) w (trace st ++ [(c, r)]) (tasks st) in
    match r with
    | Result v => (Return v, st')
    | Error e => (Raise e, st')
    end.

(** A reply of the wrong shape fails the client's validation of the
    response, which raises. *)
Definition validation_error {A} : M A :=
  raise (OtherException "ValidationError").

Definition get_business_account_gifts (connection_id : string) (exclude_unique : bool)
  : M (list OwnedGift) :=
  do v <- invoke (GetBusinessAccountGifts connection_id exclude_unique);
  match v with
  | VGifts gifts => ret gifts
  | _ => validation_error
  end.

Definition get_business_account_star_balance (connection_id : string) : M StarAmount :=
  do v <- invoke (GetBusinessAccountStarBalance connection_id);
  match v with
  | VStars stars => ret stars
  | _ => validation_error
  end.

Definition asyncio_create_task (coro : string * string) : M unit :=
  fun st =>
    (Return tt, State (connections_data st) (world st) (trace st) (tasks st ++ [coro])).

Definition now : M string :=
  fun st =>
    let (t, w) := time_time (world st) in
    (Return t, State (connections_data st) w (trace st) (tasks st)).

(** ** The connection list *)

Definition load_connections : M (list connection_dict) :=
  fun st => (Return (connections_data st), st).

Definition save_connections (connections : list connection_dict) : M unit :=
  fun st => (Return tt, State connections (world st) (trace st) (tasks st)).

Definition remove_invalid_connection (connection_id' : string) : M bool :=
  do connections <- load_connections;
  let new_connections :=
    filter (fun conn => connection_id conn ≠ connection_id') connections in
  if decide (length new_connections < length connections)%nat then
    do _ <- save_connections new_connections;
    ret true
  else ret false.

Definition check_permissions (connection_id : string) : M bool :=
  try_except
    (do _ <- invoke (Request_getBusinessAccountStarBalance connection_id);
     ret true)
    (fun e =>
       match e with
       | TelegramBadRequest _ =>
           if py_in "BUSINESS_CONNECTION_INVALID" (str e) then
             do _ <- remove_invalid_connection connection_id;
             ret false
           else if py_in "Forbidden" (str e) || py_in "no rights" (str e) then
             ret false
           else ret false
       | TelegramNotFound _ =>
           if py_in "BUSINESS_CONNECTION_INVALID" (str e) then
             do _ <- remove_invalid_connection connection_id;
             ret false
           else ret false
       | OtherException _ => ret false
       end).

(** ** Loops

    [for x in xs: body], with the local variables the body assigns to
    threaded through as [s]. *)
Fixpoint for_in {A S} (xs : list A) (s : S) (body : A → S → M S) : M S :=
  match xs with
  | [] => ret s
  | x :: xs' =>
      do s' <- body x s;
      for_in xs' s' body
  end.

(** ** The three processing steps

    In the first two the body of the [for] loop is a [try] whose handler
    catches every exception, so the outer handler can only be reached from
    the enumeration call, where the counter is still [0]. *)

Definition convert_non_unique_gifts_to_stars (connection_id : string) : M Z :=
  try_except
    (do gifts <- get_business_account_gifts connection_id true;
     for_in gifts 0 (fun gift converted_count =>
       try_except
         (do _ <- invoke (ConvertGiftToStars connection_id (owned_gift_id gift));
          ret (converted_count + 1))
         (fun _ => ret converted_count)))
    (fun _ => ret 0).

Definition transfer_unique_gifts (connection_id : string) : M Z :=
  try_except
    (do gifts <- get_business_account_gifts connection_id false;
     match gifts with
     | [] => ret 0
     | _ =>
         for_in gifts 0 (fun gift transferred_count =>
           try_except
             (do _ <- invoke (TransferGift connection_id (owned_gift_id gift)
                                (RECIPIENT_ID config) (TRANSFER_FEE config));
              ret (transferred_count + 1))
             (fun _ => ret transferred_count))
     end)
    (fun _ => ret 0).

Definition transfer_remaining_stars (connection_id : string) : M Z :=
  try_except
    (do stars <- get_business_account_star_balance connection_id;
     if bool_decide (amount stars > 0) then
       do _ <- invoke (TransferBusinessAccountStars connection_id (amount stars));
       ret (amount stars)
     else ret 0)
    (fun _ => ret 0).

(** ** Notifying the admins *)

Definition notify_admins (text : string) : M unit :=
  for_in (ADMIN_IDS config) tt (fun admin_id _ =>
    try_except
      (do _ <- invoke (SendMessage admin_id text);
       ret tt)
      (fun _ => ret tt)).

(** ** The run *)

Definition cost_line (transferred_count : Z) : string :=
  "💰 Total transfer cost: " +:+ str_int (transferred_count * TRANSFER_FEE config) +:+ " stars".

Definition summary_head (username : string)
    (converted_count transferred_count transferred_stars : Z) : string :=
  "🎯 **Automation Complete for @" +:+ username +:+ "**" +:+ nl +:+ nl +:+
  "♻️ Non-unique gifts converted: " +:+ str_int converted_count +:+ nl +:+
  "🎁 Unique gifts transferred: " +:+ str_int transferred_count +:+ nl +:+
  "⭐ Stars transferred: " +:+ str_int transferred_stars +:+ nl.

Definition summary (username : string) (converted_count transferred_count transferred_stars : Z)
  : string :=
  summary_head username converted_count transferred_count transferred_stars +:+
  cost_line transferred_count.

Definition process_connected_account (connection_id username : string) : M (Z * Z * Z) :=
  try_except
    (do converted_count <- convert_non_unique_gifts_to_stars connection_id;
     do transferred_count <- transfer_unique_gifts connection_id;
     do transferred_stars <- transfer_remaining_stars connection_id;
     do _ <- notify_admins
               (summary username converted_count transferred_count transferred_stars);
     ret (converted_count, transferred_count, transferred_stars))
    (fun _ => ret (0, 0, 0)).

(** ** Event handlers

    [asyncio.create_task(process_connected_account(c, u))] only schedules
    the run: the handler returns without awaiting it.  The model appends
    [(c, u)] to [tasks]. *)

Definition new_connection_text (username : string) (user_id : Z) (connection_id : string)
  : string :=
  "🔔 **New Connection!**" +:+ nl +:+ nl +:+
  "👤 User: @" +:+ username +:+ nl +:+
  "🆔 ID: `" +:+ str_int user_id +:+ "`" +:+ nl +:+
  "🔗 Connection: `" +:+ connection_id +:+ "`" +:+ nl +:+ nl +:+
  "🚀 Processing starting...".

(** The [for i, conn in enumerate(connections)] loop with its [break], and
    the [append] when no entry was updated. *)
Definition update_or_append (connection_data : connection_dict)
    (connections : list connection_dict) : list connection_dict :=
  match list_find (fun conn => user_id conn = user_id connection_data) connections with
  | Some (i, _) => <[i := connection_data]> connections
  | None => connections ++ [connection_data]
  end.

Definition handle_business_connection (connection : BusinessConnection) : M unit :=
  try_except
    (let user_id := User_id (BusinessConnection_user connection) in
     let username := py_or (User_username (BusinessConnection_user connection)) "Unknown" in
     let connection_id := BusinessConnection_id connection in
     do connections <- load_connections;
     do connected_at <- now;
     let connection_data := {|
       user_id := user_id;
       username := username;
       connection_id := connection_id;
       business_connection_id := connection_id;
       connected_at := connected_at
     |} in
     do _ <- save_connections (update_or_append connection_data connections);
     do _ <- notify_admins (new_connection_text username user_id connection_id);
     asyncio_create_task (connection_id, username))
    (fun _ => ret tt).

Definition get_message (message : Message) : M unit :=
  let business_id := Message_business_connection_id message in
  let user_id := User_id (Message_from_user message) in
  if decide (user_id = RECIPIENT_ID config) then ret tt
  else
    do connections <- load_connections;
    match head (filter (fun c => business_connection_id c = business_id) connections) with
    | Some connection => asyncio_create_task (business_id, username connection)
    | None => ret tt
    end.

(** ** Vocabulary of the statements *)

(** The calls [cs] put to the environment one after the other, whatever
    each one answers: the trace they leave and the environment after. *)
Fixpoint run_calls (cs : list call) (w : W) : list (call * reply) * W :=
  match cs with
  | [] => ([], w)
  | c :: cs' =>
      let (r, w1) := api c w in
      let (tr, w2) := run_calls cs' w1 in
      ((c, r) :: tr, w2)
  end.

(** The dict [handle_business_connection] builds for an event received
    at time [connected_at]. *)
Definition record_of (connection : BusinessConnection) (connected_at : string)
  : connection_dict :=
  {| user_id := User_id (BusinessConnection_user connection);
     username := py_or (User_username (BusinessConnection_user connection)) "Unknown";
     connection_id := BusinessConnection_id connection;
     business_connection_id := BusinessConnection_id connection;
     connected_at := connected_at |}.

(** A sequence of new-connection events, handled one after the other. *)
Definition handle_business_connections (events : list BusinessConnection) (st : state)
  : state :=
  foldl (fun st connection => (handle_business_connection connection st).2) st events.

End Bot.

Arguments State {W} _ _ _ _.

Definition successes (tr : list (call * reply)) : Z :=
  Z.of_nat (length (filter (fun cr => failed cr.2 = false) tr)).

Definition failures (tr : list (call * reply)) : Z :=
  Z.of_nat (length (filter (fun cr => failed cr.2 = true) tr)).

(** The error [check_permissions] answers by removing the record. *)
Definition delegation_invalid (e : exn) : bool :=
  match e with
  | TelegramBadRequest s | TelegramNotFound s => py_in "BUSINESS_CONNECTION_INVALID" s
  | OtherException _ => false
  end.

Definition forbidden (e : exn) : bool :=
  match e with
  | TelegramBadRequest s => py_in "Forbidden" s || py_in "no rights" s
  | _ => false
  end.

(** The per-item calls of the first two steps, for the enumerated gifts. *)
Definition convert_calls (connection_id : string) (gifts : list OwnedGift) : list call :=
  (fun gift => ConvertGiftToStars connection_id (owned_gift_id gift)) <$> gifts.

Definition transfer_calls (config : Config) (connection_id : string)
    (gifts : list OwnedGift) : list call :=
  (fun gift => TransferGift connection_id (owned_gift_id gift)
                 (RECIPIENT_ID config) (TRANSFER_FEE config)) <$> gifts.

Definition send_calls (config : Config) (text : string) : list call :=
  (fun admin_id => SendMessage admin_id text) <$> ADMIN_IDS config.

Definition owner_ids (connections : list connection_dict) : list Z :=
  user_id <$> connections.

(** ** A scripted environment

    Each call consumes the next scripted reply; once the script is used up
    every call succeeds with [None]. *)
Definition scripted (c : call) (w : list reply) : reply * list reply :=
  match w with
  | [] => (Result VNone, [])
  | r :: w' => (r, w')
  end.

Definition frozen_clock (w : list reply) : string * list reply := ("1700000000.0", w).

Definition empty_state (w : list reply) : state := State [] w [] [].

(** ** Concrete inputs *)

Definition example_config (fee : Z) : Config :=
  {| ADMIN_IDS := [1001; 1002]; RECIPIENT_ID := 9000; TRANSFER_FEE := fee |}.

Definition gift (owned_gift_id : string) : OwnedGift :=
  {| owned_gift_id := owned_gift_id |}.

Definition ok : reply := Result VNone.

Definition boom : reply := Error (OtherException "boom").

Definition new_connection (connection_id : string) (user_id : Z)
    (username : option string) : BusinessConnection :=
  {| BusinessConnection_id := connection_id;
     BusinessConnection_user := {| User_id := user_id; User_username := username |} |}.

Definition business_message (business_connection_id : string) (sender : Z) : Message :=
  {| Message_business_connection_id := business_connection_id;
     Message_from_user := {| User_id := sender; User_username := None |} |}.

Definition stored (user_id : Z) (username connection_id : string) : connection_dict :=
  {| user_id := user_id; username := username; connection_id := connection_id;
     business_connection_id := connection_id; connected_at := "1700000000.0" |}.

Definition two_stored (w : list reply) : state :=
  State [stored 1 "alice" "H1"; stored 2 "bob" "H2"] w [] [].

(** Three gifts enumerated, the second conversion raises. *)
Definition one_of_three_fails : list reply :=
  [Result (VGifts [gift "g1"; gift "g2"; gift "g3"]); ok; boom; ok].

(** The run of the specification's scenario: three conversions, two
    transfers, a balance of ten, then the two notifications. *)
Definition scenario : list reply :=
  [Result (VGifts [gift "g1"; gift "g2"; gift "g3"]); ok; ok; ok;
   Result (VGifts [gift "u1"; gift "u2"]); ok; ok;
   Result (VStars {| amount := 10 |}); ok;
   boom; ok].

(** ** Three statements the code does not satisfy *)

(** "A step returns 0 whenever an exception arises inside it", for the
    conversion step. *)
Definition zero_on_any_exception : Prop :=
  ∀ (W : Type) (api : call → W → reply * W) (cid : string) (st : @state W),
    trace st = [] →
    (∃ c e, (c, Error e) ∈ trace (convert_non_unique_gifts_to_stars api cid st).2) →
    (convert_non_unique_gifts_to_stars api cid st).1 = Return 0.

(** "When the connection id of a business message is that of a stored
    record, a run is scheduled for it." *)
Definition run_for_every_stored_handle : Prop :=
  ∀ (W : Type) (config : Config) (message : Message) (st : @state W)
    (connection : connection_dict),
    connection ∈ connections_data st →
    business_connection_id connection = Message_business_connection_id message →
    ∃ label,
      tasks (get_message config message st).2 =
      (tasks st ++ [(Message_business_connection_id message, label)])%list.

(** ** Objects and references

    [connections_data.copy()] copies the list object, not the dicts it
    refers to.  Here list objects and dict objects live in a heap and a
    list holds references. *)
Module PyHeap.

Definition loc := positive.

Record heap := Heap {
  dicts : gmap loc connection_dict;
  lists : gmap loc (list loc);
  connections_data : loc
}.

(** [l.copy()]: a new list object with the same references. *)
Definition list_copy (l : loc) (h : heap) : loc * heap :=
  let l' := fresh (dom (lists h)) in
  (l', Heap (dicts h) (<[l' := default [] (lists h !! l)]> (lists h)) (connections_data h)).

Definition load_connections (h : heap) : loc * heap :=
  list_copy (connections_data h) h.

Definition save_connections (connections : loc) (h : heap) : heap :=
  let (l', h') := list_copy connections h in
  Heap (dicts h') (lists h') l'.

(** What a caller can do to an object it holds.  An index out of range
    raises in Python and changes nothing; so it does here. *)
Inductive mutation :=
| ListSetItem (l : loc) (i : nat) (d : loc)
| ListAppend (l : loc) (d : loc)
| ListDelItem (l : loc) (i : nat)
| ListClear (l : loc)
| DictUpdate (d : loc) (f : connection_dict → connection_dict).

Definition apply_mutation (m : mutation) (h : heap) : heap :=
  match m with
  | ListSetItem l i d =>
      Heap (dicts h) (alter (fun xs : list loc => <[i := d]> xs) l (lists h)) (connections_data h)
  | ListAppend l d =>
      Heap (dicts h) (alter (fun xs : list loc => (xs ++ [d])%list) l (lists h)) (connections_data h)
  | ListDelItem l i =>
      Heap (dicts h) (alter (fun xs : list loc => delete i xs) l (lists h)) (connections_data h)
  | ListClear l =>
      Heap (dicts h) (alter (fun _ : list loc => []) l (lists h)) (connections_data h)
  | DictUpdate d f =>
      Heap (alter f d (dicts h)) (lists h) (connections_data h)
  end.

(** The references in the list [connections_data] is bound to, and the
    records they lead to. *)
Definition store_refs (h : heap) : list loc :=
  default [] (lists h !! connections_data h).

Definition store_view (h : heap) : list connection_dict :=
  omap (fun d => dicts h !! d) (store_refs h).

(** [m] mutates the list object [l]. *)
Definition on_list (l : loc) (m : mutation) : Prop :=
  match m with
  | ListSetItem l' _ _ | ListAppend l' _ | ListDelItem l' _ | ListClear l' => l' = l
  | DictUpdate _ _ => False
  end.

(** [m] mutates the list object [l] or one of the dicts it refers to. *)
Definition on_list_or_its_records (l : loc) (h : heap) (m : mutation) : Prop :=
  match m with
  | DictUpdate d _ => d ∈ default [] (lists h !! l)
  | _ => on_list l m
  end.

Definition set_username (v : string) (c : connection_dict) : connection_dict :=
  {| user_id := user_id c; username := v; connection_id := connection_id c;
     business_connection_id := business_connection_id c;
     connected_at := connected_at c |}.

(** A heap with one stored record. *)
Definition one_record : heap :=
  Heap {[ 1%positive := stored 42 "alice" "H1" ]}
       {[ 1%positive := [1%positive] ]}
       1%positive.

(** What a mutation of a list other than the store's leaves alone. *)
Definition agrees (h h' : heap) : Prop :=
  connections_data h' = connections_data h ∧
  lists h' !! connections_data h = lists h !! connections_data h ∧
  dicts h' = dicts h.

(** "No mutation of the returned list or of the records in it changes
    what the store holds." *)
Definition snapshot_of_records : Prop :=
  ∀ (h : heap) (m : mutation),
    is_Some (lists h !! connections_data h) →
    on_list_or_its_records (load_connections h).1 (load_connections h).2 m →
    store_view (apply_mutation m (load_connections h).2) = store_view h.

End PyHeap.

(** * The admin callbacks

    The five callback handlers behind the admin panel.  They answer the
    callback query ([callback.answer]) and write to the chat the button was
    pressed in ([callback.message.answer]); these two calls are recorded in
    a trace of their own, next to the state of the bot.  None of the
    handlers has a [try]: a call that raises ends the handler. *)

Record InlineKeyboardButton := { button_text : string; callback_data : string }.

Record CallbackQuery := {
  CallbackQuery_id : string;
  CallbackQuery_from_user : User;
  CallbackQuery_data : string;
  CallbackQuery_message_chat_id : Z
}.

Inductive ui_call :=
| MessageAnswer (chat_id : Z) (text : string)
    (reply_markup : option (list (list InlineKeyboardButton)))
| CallbackAnswer (callback_query_id : string) (text : option string) (show_alert : bool).

(** [s.split(sep, 1)] for a one-character separator. *)
Fixpoint split_first (sep : ascii) (s : string) : option (string * string) :=
  match s with
  | EmptyString => None
  | String a s' =>
      if decide (a = sep) then Some (EmptyString, s')
      else match split_first sep s' with
           | Some (before, after) => Some (String a before, after)
           | None => None
           end
  end.

Definition py_split_1 (sep : ascii) (s : string) : list string :=
  match split_first sep s with
  | Some (before, after) => [before; after]
  | None => [s]
  end.

Section Admin.

Context {W : Type}.
Variable api : call → W → reply * W.
Variable ui_api : ui_call → W → reply * W.
Variable config : Config.

Record session := Session {
  bot : @state W;
  ui_trace : list (ui_call * reply)
}.

Definition H (A : Type) : Type := session → outcome A * session.

Definition hret {A} (a : A) : H A := fun s => (Return a, s).

Definition hraise {A} (e : exn) : H A := fun s => (Raise e, s).

Definition hbind {A B} (m : H A) (k : A → H B) : H B :=
  fun s =>
    match m s with
    | (Return a, s') => k a s'
    | (Raise e, s') => (Raise e, s')
    end.

Notation "'do' x <- c1 ; c2" := (hbind c1 (fun x => c2))
  (at level 10, x name, c1 at level 100, c2 at level 200, only parsing).

(** A computation of the bot proper, run on the bot's state. *)
Definition lift {A} (m : M A) : H A :=
  fun s => let (o, st) := m (bot s) in (o, Session st (ui_trace s)).

Definition ui_invoke (c : ui_call) : H unit :=
  fun s =>
    let (r, w) := ui_api c (world (bot s)) in
    let s' :=
      Session (State (connections_data (bot s)) w (trace (bot s)) (tasks (bot s)))
              (ui_trace s ++ [(c, r)]) in
    match r with
    | Result _ => (Return tt, s')
    | Error e => (Raise e, s')
    end.

Definition callback_answer (callback : CallbackQuery) (text : option string)
    (show_alert : bool) : H unit :=
  ui_invoke (CallbackAnswer (CallbackQuery_id callback) text show_alert).

Definition message_answer (callback : CallbackQuery) (text : string)
    (reply_markup : option (list (list InlineKeyboardButton))) : H unit :=
  ui_invoke (MessageAnswer (CallbackQuery_message_chat_id callback) text reply_markup).

Fixpoint hfor_in {A S} (xs : list A) (s : S) (body : A → S → H S) : H S :=
  match xs with
  | [] => hret s
  | x :: xs' =>
      do s' <- body x s;
      hfor_in xs' s' body
  end.

Definition is_admin (user_id : Z) : bool := bool_decide (user_id ∈ ADMIN_IDS config).

Definition access_denied (callback : CallbackQuery) : H unit :=
  callback_answer callback (Some "Access denied") true.

(** The lines [f"{i}. @{username} (ID: `{user_id}`)\n"] for
    [enumerate(connections, i)]. *)
Fixpoint connection_lines (i : Z) (connections : list connection_dict) : string :=
  match connections with
  | [] => ""
  | conn :: rest =>
      str_int i +:+ ". @" +:+ username conn +:+ " (ID: `" +:+ str_int (user_id conn) +:+
      "`)" +:+ nl +:+ connection_lines (i + 1) rest
  end.

Definition view_connections_callback (callback : CallbackQuery) : H unit :=
  if negb (is_admin (User_id (CallbackQuery_from_user callback))) then
    access_denied callback
  else
    do connections <- lift load_connections;
    match connections with
    | [] => message_answer callback "No active connections found." None
    | _ =>
        let text :=
          "🔗 **Active Connections:**" +:+ nl +:+ nl +:+ connection_lines 1 connections in
        do _ <- message_answer callback text None;
        callback_answer callback None false
    end.

Definition manual_process_keyboard (connections : list connection_dict)
  : list (list InlineKeyboardButton) :=
  (fun conn =>
     [ {| button_text := "Process @" +:+ username conn;
          callback_data := "process_" +:+ connection_id conn |} ]) <$> connections.

Definition manual_process_callback (callback : CallbackQuery) : H unit :=
  if negb (is_admin (User_id (CallbackQuery_from_user callback))) then
    access_denied callback
  else
    do connections <- lift load_connections;
    match connections with
    | [] =>
        do _ <- message_answer callback "No connections available for manual processing." None;
        callback_answer callback None false
    | _ =>
        do _ <- message_answer callback "Select a connection to process manually:"
                  (Some (manual_process_keyboard connections));
        callback_answer callback None false
    end.

Definition process_connection_callback (callback : CallbackQuery) : H unit :=
  if negb (is_admin (User_id (CallbackQuery_from_user callback))) then
    access_denied callback
  else
    match py_split_1 "_" (CallbackQuery_data callback) !! 1%nat with
    | None => hraise (OtherException "list index out of range")
    | Some connection_id' =>
        do connections <- lift load_connections;
        match head (filter (fun c => connection_id c = connection_id') connections) with
        | None =>
            do _ <- message_answer callback "Connection not found." None;
            callback_answer callback None false
        | Some connection =>
            do _ <- message_answer callback
                      ("🔄 Starting manual processing for @" +:+ username connection +:+ "...")
                      None;
            do _ <- lift (asyncio_create_task (connection_id', username connection));
            callback_answer callback (Some "Processing started!") false
        end
    end.

Definition process_all_callback (callback : CallbackQuery) : H unit :=
  if negb (is_admin (User_id (CallbackQuery_from_user callback))) then
    access_denied callback
  else
    do connections <- lift load_connections;
    match connections with
    | [] =>
        do _ <- message_answer callback "No connections to process." None;
        callback_answer callback None false
    | _ =>
        do _ <- message_answer callback
                  ("🔄 Starting bulk processing for " +:+
                   str_int (Z.of_nat (length connections)) +:+ " connections...")
                  None;
        do _ <- hfor_in connections tt (fun connection _ =>
                  lift (asyncio_create_task (connection_id connection, username connection)));
        callback_answer callback (Some "Bulk processing started!") false
    end.

Definition stats_text (total_connections active_count : Z) : string :=
  "📊 **Bot Statistics**" +:+ nl +:+ nl +:+
  "🔗 Total Connections: " +:+ str_int total_connections +:+ nl +:+
  "✅ Active Connections: " +:+ str_int active_count +:+ nl +:+
  "❌ Inactive Connections: " +:+ str_int (total_connections - active_count) +:+ nl +:+
  "🎯 Recipient ID: `" +:+ str_int (RECIPIENT_ID config) +:+ "`" +:+ nl +:+
  "💰 Transfer Fee: " +:+ str_int (TRANSFER_FEE config) +:+ " stars per gift".

Definition show_stats_callback (callback : CallbackQuery) : H unit :=
  if negb (is_admin (User_id (CallbackQuery_from_user callback))) then
    access_denied callback
  else
    do connections <- lift load_connections;
    let total_connections := Z.of_nat (length connections) in
    do active_count <- hfor_in connections 0 (fun conn active_count =>
         do active <- lift (check_permissions api (connection_id conn));
         hret (if active : bool then active_count + 1 else active_count));
    do _ <- message_answer callback (stats_text total_connections active_count) None;
    callback_answer callback None false.

(** The five handlers. *)
Definition admin_callbacks : list (CallbackQuery → H unit) :=
  [view_connections_callback; manual_process_callback; process_connection_callback;
   process_all_callback; show_stats_callback].

(** The probes [show_stats_callback] makes for a list of records. *)
Definition probe_calls (connections : list connection_dict) : list call :=
  (fun conn => Request_getBusinessAccountStarBalance (connection_id conn)) <$> connections.

End Admin.

Arguments Session {W} _ _.

(** The connection ids whose probe was answered by the error that makes
    [check_permissions] drop their records. *)
Fixpoint invalidated (tr : list (call * reply)) : list string :=
  match tr with
  | [] => []
  | (Request_getBusinessAccountStarBalance cid, Error e) :: tr' =>
      if delegation_invalid e then cid :: invalidated tr' else invalidated tr'
  | _ :: tr' => invalidated tr'
  end.

(** A client for the admin panel that delivers everything. *)
Definition ui_ok (c : ui_call) (w : list reply) : reply * list reply := (ok, w).

Definition callback_from (sender : Z) (data : string) : CallbackQuery :=
  {| CallbackQuery_id := "q1";
     CallbackQuery_from_user := {| User_id := sender; User_username := None |};
     CallbackQuery_data := data;
     CallbackQuery_message_chat_id := sender |}.

(** * Profiles and referrals

    The two dicts [user_profiles] and [referrals_data], keyed by
    [str(user_id)].  A profile is a dict with six fixed keys and a
    referral entry one with two; both are records here.  The starting
    balance comes from [random.randint] and the join date from
    [time.time], both read from an arbitrary environment [R].  None of
    these functions calls the Telegram client. *)

Record profile := {
  balance : Z;
  referrals : Z;
  tasks_completed : Z;
  level : Z;
  joined_date : string;
  onboarded : bool
}.

(** The dict given to [profile.update]: the keys it has, with their
    values.  The code passes [{"onboarded": True}] and whole profiles. *)
Record profile_updates := {
  new_balance : option Z;
  new_referrals : option Z;
  new_tasks_completed : option Z;
  new_level : option Z;
  new_joined_date : option string;
  new_onboarded : option bool
}.

Definition py_update (p : profile) (updates : profile_updates) : profile :=
  {| balance := default (balance p) (new_balance updates);
     referrals := default (referrals p) (new_referrals updates);
     tasks_completed := default (tasks_completed p) (new_tasks_completed updates);
     level := default (level p) (new_level updates);
     joined_date := default (joined_date p) (new_joined_date updates);
     onboarded := default (onboarded p) (new_onboarded updates) |}.

(** A whole profile as the argument of [update]. *)
Definition whole (p : profile) : profile_updates :=
  {| new_balance := Some (balance p); new_referrals := Some (referrals p);
     new_tasks_completed := Some (tasks_completed p); new_level := Some (level p);
     new_joined_date := Some (joined_date p); new_onboarded := Some (onboarded p) |}.

(** [{"onboarded": True}] *)
Definition onboarded_true : profile_updates :=
  {| new_balance := None; new_referrals := None; new_tasks_completed := None;
     new_level := None; new_joined_date := None; new_onboarded := Some true |}.

Record referral_entry := {
  total_referrals : Z;
  referred_users : list Z
}.

Definition no_referrals : referral_entry :=
  {| total_referrals := 0; referred_users := [] |}.

Definition generate_referral_link (user_id : Z) : string :=
  let bot_username := "EstaFarmingbot" in
  "https://t.me/" +:+ bot_username +:+ "?start=ref_" +:+ str_int user_id.

Section Profiles.

Context {R : Type}.
Variable random_randint : Z → Z → R → Z * R.
Variable time_time : R → string * R.

Record sim := Sim {
  user_profiles : gmap string profile;
  referrals_data : gmap string referral_entry;
  env : R
}.

Definition get_user_profile (user_id : Z) (s : sim) : profile * sim :=
  match user_profiles s !! str_int user_id with
  | Some p => (p, s)
  | None =>
      let (b, e1) := random_randint 0 14 (env s) in
      let (t, e2) := time_time e1 in
      let p := {| balance := b; referrals := 0; tasks_completed := 0; level := 1;
                  joined_date := t; onboarded := false |} in
      (p, Sim (<[str_int user_id := p]> (user_profiles s)) (referrals_data s) e2)
  end.

Definition update_user_profile (user_id : Z) (updates : profile_updates) (s : sim) : sim :=
  let (p, s1) := get_user_profile user_id s in
  Sim (<[str_int user_id := py_update p updates]> (user_profiles s1))
      (referrals_data s1) (env s1).

Definition load_referrals (s : sim) : gmap string referral_entry := referrals_data s.

Definition save_referrals (referrals_ : gmap string referral_entry) (s : sim) : sim :=
  Sim (user_profiles s) referrals_ (env s).

Definition track_referral (referrer_id new_user_id : Z) (s : sim) : bool * sim :=
  let referrals_ := load_referrals s in
  let key := str_int referrer_id in
  let referrals_ :=
    match referrals_ !! key with
    | None => <[key := no_referrals]> referrals_
    | Some _ => referrals_
    end in
  match referrals_ !! key with
  | None => (false, s)
  | Some entry =>
      if decide (new_user_id ∈ referred_users entry) then (false, s)
      else
        let entry' :=
          {| total_referrals := total_referrals entry + 1;
             referred_users := referred_users entry ++ [new_user_id] |} in
        let s1 := save_referrals (<[key := entry']> referrals_) s in
        let (p, s2) := get_user_profile referrer_id s1 in
        let p' :=
          {| balance := balance p + 5; referrals := referrals p + 1;
             tasks_completed := tasks_completed p; level := level p;
             joined_date := joined_date p; onboarded := onboarded p |} in
        (true, update_user_profile referrer_id (whole p') s2)
  end.

Definition get_user_referral_stats (user_id : Z) (s : sim) : referral_entry :=
  default no_referrals (load_referrals s !! str_int user_id).

(** The three things the handlers do to the two dicts. *)
Inductive profile_op :=
| TrackReferral (referrer_id new_user_id : Z)
| GetUserProfile (user_id : Z)
| MarkOnboarded (user_id : Z).

Definition run_profile_op (s : sim) (op : profile_op) : sim :=
  match op with
  | TrackReferral referrer_id new_user_id => (track_referral referrer_id new_user_id s).2
  | GetUserProfile user_id => (get_user_profile user_id s).2
  | MarkOnboarded user_id => update_user_profile user_id onboarded_true s
  end.

Definition run_profile_ops (ops : list profile_op) (s : sim) : sim :=
  foldl run_profile_op s ops.

(** Every referral entry counts the users it lists, lists none twice, and
    belongs to a user whose profile shows the same count. *)
Definition referrals_consistent (s : sim) : Prop :=
  ∀ key entry,
    referrals_data s !! key = Some entry →
    total_referrals entry = Z.of_nat (length (referred_users entry)) ∧
    NoDup (referred_users entry) ∧
    ∃ p, user_profiles s !! key = Some p ∧ referrals p = total_referrals entry.

(** A profile without a referral entry shows no referrals. *)
Definition profiles_consistent (s : sim) : Prop :=
  ∀ key p,
    user_profiles s !! key = Some p →
    referrals_data s !! key = None →
    referrals p = 0.

End Profiles.

Arguments Sim {R} _ _ _.

(** An environment whose [randint] returns the lower bound. *)
Definition lowest (a b : Z) (e : unit) : Z * unit := (a, e).

Definition noon (e : unit) : string * unit := ("1700000000.0", e).

Definition no_profiles : @sim unit := Sim ∅ ∅ tt.

(** * Proofs *)

(** ** Python helpers *)

Example py_in_marker :
  py_in "BUSINESS_CONNECTION_INVALID" "Bad Request: BUSINESS_CONNECTION_INVALID" = true.
Proof. reflexivity. Qed.

Example py_in_absent : py_in "Forbidden" "Bad Request: chat not found" = false.
Proof. reflexivity. Qed.

Example py_or_empty : py_or (Some "") "Unknown" = "Unknown".
Proof. reflexivity. Qed.

Example str_int_negative : str_int (-25) = "-25".
Proof. reflexivity. Qed.

(** ** The connection list *)

Lemma filter_none {A} (P : A → Prop) `{∀ x, Decision (P x)} (l : list A) :
  Forall (fun x => ¬ P x) l → filter P l = [].
Proof.
  induction 1 as [|x l Hx Hl IH]; [done|].
  by rewrite filter_cons, decide_False.
Qed.

Lemma filter_all {A} (P : A → Prop) `{∀ x, Decision (P x)} (l : list A) :
  Forall P l → filter P l = l.
Proof.
  induction 1 as [|x l Hx Hl IH]; [done|].
  by rewrite filter_cons, decide_True, IH.
Qed.

Lemma update_or_append_nil (d : connection_dict) : update_or_append d [] = [d].
Proof. reflexivity. Qed.

Lemma update_or_append_cons (d c : connection_dict) (l : list connection_dict) :
  update_or_append d (c :: l) =
  if decide (user_id c = user_id d) then d :: l else c :: update_or_append d l.
Proof.
  unfold update_or_append. simpl.
  destruct (decide (user_id c = user_id d)) as [Heq|Hne]; simpl; [done|].
  by destruct (list_find _ l) as [[i x]|].
Qed.

(** Replacing keeps the owner ids as they are; appending adds the new id
    at the end. *)
Lemma owner_ids_update_or_append (d : connection_dict) (l : list connection_dict) :
  owner_ids (update_or_append d l) =
  if decide (user_id d ∈ owner_ids l) then owner_ids l
  else (owner_ids l ++ [user_id d])%list.
Proof.
  induction l as [|c l IH].
  - rewrite update_or_append_nil. unfold owner_ids.
    destruct (decide _) as [H|H]; [|done]. by apply elem_of_nil in H.
  - rewrite update_or_append_cons. unfold owner_ids in *.
    destruct (decide (user_id c = user_id d)) as [Heq|Hne]; rewrite !fmap_cons.
    + rewrite decide_True by (rewrite Heq; left). by rewrite Heq.
    + rewrite IH. destruct (decide (user_id d ∈ user_id <$> l)) as [Hin|Hnin].
      * rewrite decide_True by (by right). done.
      * rewrite decide_False; [done|].
        rewrite not_elem_of_cons. split; [congruence|done].
Qed.

Lemma NoDup_update_or_append (d : connection_dict) (l : list connection_dict) :
  NoDup (owner_ids l) → NoDup (owner_ids (update_or_append d l)).
Proof.
  intros Hl. rewrite owner_ids_update_or_append. case_decide as Hin; [done|].
  apply NoDup_app. split_and!; [done| |apply NoDup_singleton].
  intros x Hx ->%list_elem_of_singleton. done.
Qed.

Lemma NoDup_owner_ids_filter (P : connection_dict → Prop) `{∀ c, Decision (P c)}
    (l : list connection_dict) :
  NoDup (owner_ids l) → NoDup (owner_ids (filter P l)).
Proof.
  unfold owner_ids. induction l as [|c l IH]; [done|].
  rewrite fmap_cons, NoDup_cons. intros [Hc Hl].
  rewrite filter_cons. case_decide; [|by auto].
  rewrite fmap_cons, NoDup_cons. split; [|by auto].
  intros (c' & Heq & Hin%list_elem_of_filter)%list_elem_of_fmap.
  apply Hc, list_elem_of_fmap. exists c'. tauto.
Qed.

Lemma successes_cons (c : call) (r : reply) (tr : list (call * reply)) :
  successes ((c, r) :: tr) = (if failed r then 0 else 1) + successes tr.
Proof.
  unfold successes. rewrite filter_cons. simpl.
  destruct r; simpl; repeat case_decide; simpl; try done; lia.
Qed.

Lemma failures_cons (c : call) (r : reply) (tr : list (call * reply)) :
  failures ((c, r) :: tr) = (if failed r then 1 else 0) + failures tr.
Proof.
  unfold failures. rewrite filter_cons. simpl.
  destruct r; simpl; repeat case_decide; simpl; try done; lia.
Qed.

Lemma successes_failures (tr : list (call * reply)) :
  successes tr + failures tr = Z.of_nat (length tr).
Proof.
  induction tr as [|[c r] tr IH]; [done|].
  rewrite successes_cons, failures_cons. simpl length. destruct r; simpl; lia.
Qed.

Lemma successes_nonneg (tr : list (call * reply)) : 0 ≤ successes tr.
Proof. unfold successes. lia. Qed.

Lemma failures_nonneg (tr : list (call * reply)) : 0 ≤ failures tr.
Proof. unfold failures. lia. Qed.

Lemma successes_le_length (tr : list (call * reply)) :
  successes tr ≤ Z.of_nat (length tr).
Proof. pose proof (successes_failures tr). pose proof (failures_nonneg tr). lia. Qed.

Section Proofs.

Context {W : Type}.
Variable api : call → W → reply * W.
Variable time_time : W → string * W.
Variable config : Config.

Implicit Types (st : @state W) (cid : string).

Lemma remove_invalid_connection_absent cid st :
  Forall (fun conn => connection_id conn ≠ cid) (connections_data st) →
  remove_invalid_connection cid st = (Return false, st).
Proof.
  intros Hall. unfold remove_invalid_connection, bind, load_connections.
  rewrite filter_all by done. by rewrite decide_False by lia.
Qed.

Lemma remove_invalid_connection_present cid st :
  Exists (fun conn => connection_id conn = cid) (connections_data st) →
  remove_invalid_connection cid st =
  (Return true,
   State (filter (fun conn => connection_id conn ≠ cid) (connections_data st))
         (world st) (trace st) (tasks st)).
Proof.
  intros (c & Hin & Hc)%Exists_exists.
  unfold remove_invalid_connection, bind, load_connections, save_connections, ret.
  rewrite decide_True; [done|].
  apply (length_filter_lt _ _ c); [done|]. intros Hne. by apply Hne.
Qed.

(** Whatever it returns, the list afterwards is the filtered one. *)
Lemma remove_invalid_connection_store cid st :
  connections_data (remove_invalid_connection cid st).2 =
  filter (fun conn => connection_id conn ≠ cid) (connections_data st).
Proof.
  destruct (decide (Exists (fun conn => connection_id conn = cid) (connections_data st)))
    as [Hex|Hnex].
  - by rewrite remove_invalid_connection_present.
  - apply not_Exists_Forall in Hnex; [|intros c; apply _].
    rewrite remove_invalid_connection_absent by done. simpl.
    by rewrite filter_all.
Qed.

Lemma remove_invalid_connection_returns cid st :
  ∃ b, (remove_invalid_connection cid st).1 = Return b.
Proof.
  unfold remove_invalid_connection, bind, load_connections, save_connections, ret.
  case_decide; eauto.
Qed.

Lemma remove_invalid_connection_frame cid st :
  world (remove_invalid_connection cid st).2 = world st ∧
  trace (remove_invalid_connection cid st).2 = trace st ∧
  tasks (remove_invalid_connection cid st).2 = tasks st.
Proof.
  unfold remove_invalid_connection, bind, load_connections, save_connections, ret.
  by case_decide.
Qed.

(** ** Loops over calls *)

Lemma run_calls_cons (c : call) (cs : list call) (w : W) :
  run_calls api (c :: cs) w =
  ((c, (api c w).1) :: (run_calls api cs (api c w).2).1,
   (run_calls api cs (api c w).2).2).
Proof.
  simpl. destruct (api c w) as [r w1]. simpl.
  by destruct (run_calls api cs w1).
Qed.

Lemma run_calls_calls (cs : list call) (w : W) : (run_calls api cs w).1.*1 = cs.
Proof.
  revert w. induction cs as [|c cs IH]; intros w; [done|].
  simpl. destruct (api c w) as [r w1]. specialize (IH w1).
  destruct (run_calls api cs w1) as [tr w2]. simpl in *. f_equal. exact IH.
Qed.

Lemma run_calls_length (cs : list call) (w : W) :
  length (run_calls api cs w).1 = length cs.
Proof. by rewrite <- (run_calls_calls cs w) at 2; rewrite length_fmap. Qed.

(** The counting loops of the first two steps: every item is put to the
    environment, in order, and the counter grows by the number of calls
    that did not raise. *)
Lemma for_in_count {A} (mk : A → call) (xs : list A) (n : Z) st :
  for_in xs n (fun x count =>
    try_except (bind (invoke api (mk x)) (fun _ => ret (count + 1)))
               (fun _ => ret count)) st =
  (Return (n + successes (run_calls api (mk <$> xs) (world st)).1),
   State (connections_data st) (run_calls api (mk <$> xs) (world st)).2
         (trace st ++ (run_calls api (mk <$> xs) (world st)).1) (tasks st)).
Proof.
  revert n st. induction xs as [|x xs IH]; intros n st.
  - destruct st. simpl. unfold ret, successes. simpl.
    by rewrite Z.add_0_r, app_nil_r.
  - rewrite fmap_cons, run_calls_cons. cbn [for_in].
    unfold bind at 1, try_except, bind, invoke.
    destruct (api (mk x) (world st)) as [r w1].
    destruct r as [v|e]; unfold ret; rewrite IH;
      cbn [world trace connections_data tasks fst snd];
      rewrite <- app_assoc, successes_cons; cbn [failed app];
      do 2 f_equal; lia.
Qed.

(** The notification loop: one [send_message] per entry of [ADMIN_IDS],
    in order, whatever each one answers. *)
Lemma for_in_notify (text : string) (ids : list Z) st :
  for_in ids tt (fun admin_id _ =>
    try_except (bind (invoke api (SendMessage admin_id text)) (fun _ => ret tt))
               (fun _ => ret tt)) st =
  (Return tt,
   State (connections_data st)
         (run_calls api ((fun a => SendMessage a text) <$> ids) (world st)).2
         (trace st ++ (run_calls api ((fun a => SendMessage a text) <$> ids) (world st)).1)
         (tasks st)).
Proof.
  revert st. induction ids as [|a ids IH]; intros st.
  - destruct st. simpl. unfold ret. simpl. by rewrite app_nil_r.
  - rewrite fmap_cons, run_calls_cons. cbn [for_in].
    unfold bind at 1, try_except, bind, invoke.
    destruct (api (SendMessage a text) (world st)) as [r w1].
    destruct r as [v|e]; unfold ret; rewrite IH;
      cbn [world trace connections_data tasks fst snd];
      by rewrite <- app_assoc.
Qed.

Lemma notify_admins_run (text : string) st :
  notify_admins api config text st =
  (Return tt,
   State (connections_data st)
         (run_calls api ((fun a => SendMessage a text) <$> ADMIN_IDS config) (world st)).2
         (trace st ++
            (run_calls api ((fun a => SendMessage a text) <$> ADMIN_IDS config) (world st)).1)
         (tasks st)).
Proof. apply for_in_notify. Qed.

(** ** The three steps, call by call *)

Lemma convert_non_unique_gifts_to_stars_run cid st :
  convert_non_unique_gifts_to_stars api cid st =
  let c := GetBusinessAccountGifts cid true in
  match api c (world st) with
  | (Result (VGifts gifts), w1) =>
      let items := run_calls api (convert_calls cid gifts) w1 in
      (Return (successes items.1),
       State (connections_data st) items.2
             (trace st ++ (c, Result (VGifts gifts)) :: items.1) (tasks st))
  | (r, w1) =>
      (Return 0, State (connections_data st) w1 (trace st ++ [(c, r)]) (tasks st))
  end.
Proof.
  unfold convert_non_unique_gifts_to_stars, try_except, get_business_account_gifts.
  unfold bind at 1. unfold bind at 1. unfold invoke.
  destruct (api (GetBusinessAccountGifts cid true) (world st)) as [[[|gifts|stars]|e] w1];
    try done.
  unfold ret at 1.
  rewrite (for_in_count (fun gift => ConvertGiftToStars cid (owned_gift_id gift))).
  cbn [world trace connections_data tasks]. unfold convert_calls.
  by rewrite <- app_assoc, Z.add_0_l.
Qed.

Lemma transfer_unique_gifts_run cid st :
  transfer_unique_gifts api config cid st =
  let c := GetBusinessAccountGifts cid false in
  match api c (world st) with
  | (Result (VGifts gifts), w1) =>
      let items := run_calls api (transfer_calls config cid gifts) w1 in
      (Return (successes items.1),
       State (connections_data st) items.2
             (trace st ++ (c, Result (VGifts gifts)) :: items.1) (tasks st))
  | (r, w1) =>
      (Return 0, State (connections_data st) w1 (trace st ++ [(c, r)]) (tasks st))
  end.
Proof.
  unfold transfer_unique_gifts, try_except, get_business_account_gifts.
  unfold bind at 1. unfold bind at 1. unfold invoke.
  destruct (api (GetBusinessAccountGifts cid false) (world st)) as [[[|gifts|stars]|e] w1];
    try done.
  unfold ret at 1. destruct gifts as [|gift gifts]; [done|].
  rewrite (for_in_count (fun gift => TransferGift cid (owned_gift_id gift)
                                       (RECIPIENT_ID config) (TRANSFER_FEE config))).
  cbn [world trace connections_data tasks]. unfold transfer_calls.
  by rewrite <- app_assoc, Z.add_0_l.
Qed.

Lemma transfer_remaining_stars_run cid st :
  transfer_remaining_stars api cid st =
  let q := GetBusinessAccountStarBalance cid in
  match api q (world st) with
  | (Result (VStars stars), w1) =>
      if bool_decide (amount stars > 0) then
        let t := TransferBusinessAccountStars cid (amount stars) in
        let (r, w2) := api t w1 in
        (Return (if failed r then 0 else amount stars),
         State (connections_data st) w2
               (trace st ++ [(q, Result (VStars stars)); (t, r)]) (tasks st))
      else
        (Return 0,
         State (connections_data st) w1
               (trace st ++ [(q, Result (VStars stars))]) (tasks st))
  | (r, w1) =>
      (Return 0, State (connections_data st) w1 (trace st ++ [(q, r)]) (tasks st))
  end.
Proof.
  unfold transfer_remaining_stars, try_except, get_business_account_star_balance.
  unfold bind at 1. unfold bind at 1. unfold invoke at 1.
  destruct (api (GetBusinessAccountStarBalance cid) (world st)) as [[[|gifts|stars]|e] w1];
    try done.
  unfold ret at 1. case_bool_decide; [|done].
  unfold bind, invoke. cbn [world trace connections_data tasks].
  destruct (api _ w1) as [[v|e] w2]; cbn [failed]; unfold ret; by rewrite <- app_assoc.
Qed.

(** ** New connections *)

Lemma handle_business_connection_run (connection : BusinessConnection) st :
  handle_business_connection api time_time config connection st =
  let user := BusinessConnection_user connection in
  let username := py_or (User_username user) "Unknown" in
  let cid := BusinessConnection_id connection in
  let sends :=
    run_calls api (send_calls config (new_connection_text username (User_id user) cid))
              (time_time (world st)).2 in
  (Return tt,
   State (update_or_append (record_of connection (time_time (world st)).1)
            (connections_data st))
         sends.2 (trace st ++ sends.1) (tasks st ++ [(cid, username)])).
Proof.
  unfold handle_business_connection, try_except, load_connections.
  unfold bind at 1. unfold bind at 1. unfold now.
  destruct (time_time (world st)) as [t w0].
  unfold bind at 1. unfold save_connections at 1.
  unfold bind at 1. rewrite notify_admins_run.
  unfold asyncio_create_task. by cbn.
Qed.

Lemma handle_business_connection_store (connection : BusinessConnection) st :
  connections_data (handle_business_connection api time_time config connection st).2 =
  update_or_append (record_of connection (time_time (world st)).1) (connections_data st).
Proof. by rewrite handle_business_connection_run. Qed.

Lemma handle_business_connections_NoDup (events : list BusinessConnection) st :
  NoDup (owner_ids (connections_data st)) →
  NoDup (owner_ids
           (connections_data (handle_business_connections api time_time config events st))).
Proof.
  revert st. induction events as [|connection events IH]; intros st Hst; [done|].
  simpl. apply IH. rewrite handle_business_connection_store.
  by apply NoDup_update_or_append.
Qed.

(** C1: starting from the empty list, after every new-connection event of
    any sequence no two stored records have the same [user_id]; after three
    events whose owners are a, b, a (a different from b) the list holds
    exactly two records, the first being the one built from the third
    event (its connection id and user name) and the second the one built
    from the second event. *)
Theorem one_record_per_owner :
  (∀ (events : list BusinessConnection) (n : nat) (w : W),
     NoDup (owner_ids (connections_data
       (handle_business_connections api time_time config (take n events)
          (State [] w [] []))))) ∧
  (∀ (e1 e2 e3 : BusinessConnection) (w : W),
     User_id (BusinessConnection_user e1) = User_id (BusinessConnection_user e3) →
     User_id (BusinessConnection_user e1) ≠ User_id (BusinessConnection_user e2) →
     let connections :=
       connections_data
         (handle_business_connections api time_time config [e1; e2; e3]
            (State [] w [] [])) in
     length connections = 2%nat ∧
     ∃ t2 t3, connections = [record_of e3 t3; record_of e2 t2]).
Proof.
  split.
  - intros events n w. apply handle_business_connections_NoDup. constructor.
  - intros e1 e2 e3 w Heq Hne connections. subst connections.
    unfold handle_business_connections. cbn [foldl].
    rewrite !handle_business_connection_store.
    set (st1 := (handle_business_connection api time_time config e1 _).2).
    set (st2 := (handle_business_connection api time_time config e2 _).2).
    cbn [connections_data]. rewrite update_or_append_nil.
    rewrite update_or_append_cons. cbn [record_of user_id].
    rewrite decide_False by done. rewrite update_or_append_nil.
    rewrite update_or_append_cons. cbn [record_of user_id].
    rewrite decide_True by done. split; [done|]. eauto.
Qed.

(** ** Removal *)

(** C2: [remove_invalid_connection] called with a connection id that no
    stored record carries returns [False] and leaves the whole state as it
    was; called with one that some stored record carries it returns [True],
    no record with that connection id is left, and the other records are
    kept in order. *)
Theorem remove_invalid_connection_spec cid st :
  (Forall (fun conn => connection_id conn ≠ cid) (connections_data st) →
     remove_invalid_connection cid st = (Return false, st)) ∧
  (Exists (fun conn => connection_id conn = cid) (connections_data st) →
     (remove_invalid_connection cid st).1 = Return true ∧
     Forall (fun conn => connection_id conn ≠ cid)
       (connections_data (remove_invalid_connection cid st).2) ∧
     connections_data (remove_invalid_connection cid st).2 =
       filter (fun conn => connection_id conn ≠ cid) (connections_data st)).
Proof.
  split; [apply remove_invalid_connection_absent|].
  intros Hex. rewrite remove_invalid_connection_present by done. simpl.
  split_and!; [done| |done].
  apply Forall_forall. by intros c [? _]%list_elem_of_filter.
Qed.

(** ** The permission probe *)

Lemma check_permissions_run cid st :
  check_permissions api cid st =
  let c := Request_getBusinessAccountStarBalance cid in
  let tr := (trace st ++ [(c, (api c (world st)).1)])%list in
  match (api c (world st)).1 with
  | Result _ =>
      (Return true, State (connections_data st) (api c (world st)).2 tr (tasks st))
  | Error e =>
      (Return false,
       State (if delegation_invalid e
              then filter (fun conn => connection_id conn ≠ cid) (connections_data st)
              else connections_data st)
             (api c (world st)).2 tr (tasks st))
  end.
Proof.
  unfold check_permissions, try_except. unfold bind at 1. unfold invoke.
  destruct (api (Request_getBusinessAccountStarBalance cid) (world st)) as [[v|e] w1];
    [done|].
  set (st1 := State (connections_data st) w1
                (trace st ++ [(Request_getBusinessAccountStarBalance cid, Error e)])
                (tasks st)).
  assert (Hremoved :
    bind (remove_invalid_connection cid) (fun _ => ret false) st1 =
    (Return false,
     State (filter (fun conn => connection_id conn ≠ cid) (connections_data st))
           w1 (trace st1) (tasks st))).
  { pose proof (remove_invalid_connection_store cid st1) as Hs.
    destruct (remove_invalid_connection_returns cid st1) as [b Hb].
    destruct (remove_invalid_connection_frame cid st1) as (Hw & Ht & Hk).
    unfold bind. destruct (remove_invalid_connection cid st1) as [o [cd2 w2 tr2 k2]].
    simpl in *. by subst. }
  cbn [fst snd].
  destruct e as [s|s|s]; cbn [str delegation_invalid];
    repeat (destruct (py_in _ s)); cbn [orb]; by rewrite ?Hremoved.
Qed.

(** C3: [check_permissions] returns a boolean for every reply of the probe
    call and never raises.  When the probe succeeds it returns [True].
    When it raises [TelegramBadRequest] or [TelegramNotFound] with
    BUSINESS_CONNECTION_INVALID in its text, the records with that
    connection id are removed and the result is [False].  On every other
    error, a "Forbidden"/"no rights" one included, the result is [False]
    and the stored list is the same. *)
Theorem check_permissions_spec cid st :
  let r := (api (Request_getBusinessAccountStarBalance cid) (world st)).1 in
  let res := check_permissions api cid st in
  (∃ b, res.1 = Return b) ∧
  (∀ v, r = Result v → res.1 = Return true ∧ connections_data res.2 = connections_data st) ∧
  (∀ e, r = Error e → delegation_invalid e = true →
     res.1 = Return false ∧
     connections_data res.2 =
       filter (fun conn => connection_id conn ≠ cid) (connections_data st) ∧
     Forall (fun conn => connection_id conn ≠ cid) (connections_data res.2)) ∧
  (∀ e, r = Error e → delegation_invalid e = false → forbidden e = true →
     res.1 = Return false ∧ connections_data res.2 = connections_data st) ∧
  (∀ e, r = Error e → delegation_invalid e = false →
     res.1 = Return false ∧ connections_data res.2 = connections_data st).
Proof.
  intros r res. subst r res. rewrite check_permissions_run. cbn zeta.
  destruct (api (Request_getBusinessAccountStarBalance cid) (world st)).1 as [v|e].
  - split_and!; [by eauto|done|done..].
  - split_and!; [by eauto|done|..].
    + intros e' [= <-] ->. cbn. split_and!; [done..|].
      apply Forall_forall. by intros c [? _]%list_elem_of_filter.
    + by intros e' [= <-] -> _.
    + by intros e' [= <-] ->.
Qed.

(** ** The run *)

Lemma convert_non_unique_gifts_to_stars_returns cid st :
  ∃ n, (convert_non_unique_gifts_to_stars api cid st).1 = Return n.
Proof.
  rewrite convert_non_unique_gifts_to_stars_run. cbn zeta.
  destruct (api _ (world st)) as [[[|gifts|stars]|e] w1]; eauto.
Qed.

Lemma transfer_unique_gifts_returns cid st :
  ∃ n, (transfer_unique_gifts api config cid st).1 = Return n.
Proof.
  rewrite transfer_unique_gifts_run. cbn zeta.
  destruct (api _ (world st)) as [[[|gifts|stars]|e] w1]; eauto.
Qed.

Lemma transfer_remaining_stars_returns cid st :
  ∃ n, (transfer_remaining_stars api cid st).1 = Return n.
Proof.
  rewrite transfer_remaining_stars_run. cbn zeta.
  destruct (api _ (world st)) as [[[|gifts|stars]|e] w1]; eauto.
  case_bool_decide; eauto. destruct (api _ w1) as [r w2]. eauto.
Qed.

Lemma process_connected_account_run cid (username : string) st :
  let r1 := convert_non_unique_gifts_to_stars api cid st in
  let r2 := transfer_unique_gifts api config cid r1.2 in
  let r3 := transfer_remaining_stars api cid r2.2 in
  ∃ c t s,
    r1.1 = Return c ∧ r2.1 = Return t ∧ r3.1 = Return s ∧
    process_connected_account api config cid username st =
    (Return (c, t, s),
     let sends :=
       run_calls api (send_calls config (summary config username c t s)) (world r3.2) in
     State (connections_data r3.2) sends.2 (trace r3.2 ++ sends.1) (tasks r3.2)).
Proof.
  intros r1 r2 r3. subst r1 r2 r3.
  unfold process_connected_account, try_except, bind.
  destruct (convert_non_unique_gifts_to_stars_returns cid st) as [c Hc].
  destruct (convert_non_unique_gifts_to_stars api cid st) as [o1 st1].
  simpl in Hc. subst o1. cbn [fst snd].
  destruct (transfer_unique_gifts_returns cid st1) as [t Ht].
  destruct (transfer_unique_gifts api config cid st1) as [o2 st2].
  simpl in Ht. subst o2. cbn [fst snd].
  destruct (transfer_remaining_stars_returns cid st2) as [s Hs].
  destruct (transfer_remaining_stars api cid st2) as [o3 st3].
  simpl in Hs. subst o3. cbn [fst snd].
  exists c, t, s. split_and!; [done..|].
  by rewrite notify_admins_run.
Qed.

(** ** Counts of the first two steps *)

Lemma counts_of_items (cs : list call) (w : W) :
  let items := (run_calls api cs w).1 in
  items.*1 = cs ∧
  0 ≤ successes items ≤ Z.of_nat (length cs) ∧
  successes items = Z.of_nat (length cs) - failures items ∧
  (failures items = 1 → successes items = Z.of_nat (length cs) - 1).
Proof.
  intros items. subst items.
  pose proof (successes_failures (run_calls api cs w).1) as Hsum.
  pose proof (successes_nonneg (run_calls api cs w).1).
  pose proof (failures_nonneg (run_calls api cs w).1).
  rewrite run_calls_length in Hsum.
  split_and!; [apply run_calls_calls|lia..].
Qed.

(** C4: when the enumeration returns N gifts, the conversion step puts one
    conversion call per gift to the client, in the order of the
    enumeration and whatever the earlier calls answered, and returns the
    number of calls that did not raise; that number is between 0 and N,
    equals N minus the number of calls that raised, and is N-1 when exactly
    one raised.  The same holds for the transfer step with its transfer
    calls. *)
Theorem per_item_counts cid st :
  (∀ gifts w1,
     api (GetBusinessAccountGifts cid true) (world st) = (Result (VGifts gifts), w1) →
     let items := (run_calls api (convert_calls cid gifts) w1).1 in
     let res := convert_non_unique_gifts_to_stars api cid st in
     res.1 = Return (successes items) ∧
     trace res.2 =
       (trace st ++ (GetBusinessAccountGifts cid true, Result (VGifts gifts)) :: items)%list ∧
     items.*1 = convert_calls cid gifts ∧
     0 ≤ successes items ≤ Z.of_nat (length gifts) ∧
     successes items = Z.of_nat (length gifts) - failures items ∧
     (failures items = 1 → successes items = Z.of_nat (length gifts) - 1)) ∧
  (∀ gifts w1,
     api (GetBusinessAccountGifts cid false) (world st) = (Result (VGifts gifts), w1) →
     let items := (run_calls api (transfer_calls config cid gifts) w1).1 in
     let res := transfer_unique_gifts api config cid st in
     res.1 = Return (successes items) ∧
     trace res.2 =
       (trace st ++ (GetBusinessAccountGifts cid false, Result (VGifts gifts)) :: items)%list ∧
     items.*1 = transfer_calls config cid gifts ∧
     0 ≤ successes items ≤ Z.of_nat (length gifts) ∧
     successes items = Z.of_nat (length gifts) - failures items ∧
     (failures items = 1 → successes items = Z.of_nat (length gifts) - 1)).
Proof.
  split; intros gifts w1 Hgifts items res; subst items res.
  - rewrite convert_non_unique_gifts_to_stars_run. cbn zeta. rewrite Hgifts.
    pose proof (counts_of_items (convert_calls cid gifts) w1) as Hc.
    unfold convert_calls in Hc at 3 4 5. rewrite length_fmap in Hc.
    split_and!; [done|done|apply Hc..].
  - rewrite transfer_unique_gifts_run. cbn zeta. rewrite Hgifts.
    pose proof (counts_of_items (transfer_calls config cid gifts) w1) as Hc.
    unfold transfer_calls in Hc at 3 4 5. rewrite length_fmap in Hc.
    split_and!; [done|done|apply Hc..].
Qed.

(** ** The reported cost *)

Lemma str_int_inj (x y : Z) : str_int x = str_int y → x = y.
Proof. apply pretty_Z_inj. Qed.

(** C5: in every run, each message put to [send_message] is the summary
    whose last line prints [t * TRANSFER_FEE] in decimal, where [t] is the
    number [transfer_unique_gifts] returned in this run (and the second
    component of the run's result); the printed figure determines the
    product exactly.  [TRANSFER_FEE] is any integer. *)
Theorem reported_cost cid (username : string) st :
  let r1 := convert_non_unique_gifts_to_stars api cid st in
  let r2 := transfer_unique_gifts api config cid r1.2 in
  let r3 := transfer_remaining_stars api cid r2.2 in
  let res := process_connected_account api config cid username st in
  ∃ c t s sends,
    r2.1 = Return t ∧
    res.1 = Return (c, t, s) ∧
    trace res.2 = (trace r3.2 ++ sends)%list ∧
    sends.*1 =
      (fun admin_id =>
         SendMessage admin_id
           (summary_head username c t s +:+
            "💰 Total transfer cost: " +:+ str_int (t * TRANSFER_FEE config) +:+ " stars"))
      <$> ADMIN_IDS config ∧
    ∀ x, str_int x = str_int (t * TRANSFER_FEE config) → x = t * TRANSFER_FEE config.
Proof.
  intros r1 r2 r3 res. subst res.
  destruct (process_connected_account_run cid username st)
    as (c & t & s & Hc & Ht & Hs & ->).
  fold r1 r2 r3.
  exists c, t, s, (run_calls api (send_calls config (summary config username c t s))
                    (world r3.2)).1.
  split_and!; [done|done|done| |intros x; apply str_int_inj].
  by rewrite run_calls_calls.
Qed.

(** ** Notifications *)

(** C7: the run puts exactly one [send_message] call per entry of
    [ADMIN_IDS] to the client, in the order of the list and whatever the
    earlier ones answered, so as many deliveries are attempted as there are
    entries; the value the run returns is the triple of the three steps'
    results, fixed before the first delivery. *)
Theorem notification_fanout cid (username : string) st :
  let r1 := convert_non_unique_gifts_to_stars api cid st in
  let r2 := transfer_unique_gifts api config cid r1.2 in
  let r3 := transfer_remaining_stars api cid r2.2 in
  let res := process_connected_account api config cid username st in
  ∃ c t s,
    r1.1 = Return c ∧ r2.1 = Return t ∧ r3.1 = Return s ∧
    let sends :=
      (run_calls api (send_calls config (summary config username c t s)) (world r3.2)).1 in
    res.1 = Return (c, t, s) ∧
    trace res.2 = (trace r3.2 ++ sends)%list ∧
    sends.*1 = (fun admin_id => SendMessage admin_id (summary config username c t s))
               <$> ADMIN_IDS config ∧
    length sends = length (ADMIN_IDS config).
Proof.
  intros r1 r2 r3 res. subst res.
  destruct (process_connected_account_run cid username st)
    as (c & t & s & Hc & Ht & Hs & ->).
  fold r1 r2 r3. exists c, t, s. split_and!; [done..|]. cbn zeta.
  split_and!; [done|done|apply run_calls_calls|].
  rewrite run_calls_length. unfold send_calls. by rewrite length_fmap.
Qed.

(** ** Steps that fail as a whole *)

(** C6, as the code has it: each of the three steps returns a number for
    every behaviour of the client, and so does the run.  An exception
    raised by a per-item call of the first or second step only skips that
    item: when the enumeration returns gifts, every gift is put to the
    client, in order, and the step returns the number of per-item calls
    that did not raise.  A step returns 0 when its enumeration or balance
    query raises, and the third also when the balance transfer raises.
    The second step puts no transfer call to the client when the
    enumeration raises or returns no gift.  The third step puts a balance
    transfer to the client exactly when the queried amount is greater than
    zero. *)
Theorem steps_return cid st :
  let enum1 := GetBusinessAccountGifts cid true in
  let enum2 := GetBusinessAccountGifts cid false in
  let query := GetBusinessAccountStarBalance cid in
  let res1 := convert_non_unique_gifts_to_stars api cid st in
  let res2 := transfer_unique_gifts api config cid st in
  let res3 := transfer_remaining_stars api cid st in
  ((∃ n, res1.1 = Return n) ∧ (∃ n, res2.1 = Return n) ∧ (∃ n, res3.1 = Return n) ∧
   ∀ username, ∃ c t s,
     (process_connected_account api config cid username st).1 = Return (c, t, s)) ∧
  (∀ gifts w1, api enum1 (world st) = (Result (VGifts gifts), w1) →
     let items := (run_calls api (convert_calls cid gifts) w1).1 in
     res1.1 = Return (successes items) ∧
     successes items = Z.of_nat (length gifts) - failures items ∧
     items.*1 = convert_calls cid gifts ∧
     trace res1.2 = (trace st ++ (enum1, Result (VGifts gifts)) :: items)%list) ∧
  (∀ gifts w1, api enum2 (world st) = (Result (VGifts gifts), w1) →
     let items := (run_calls api (transfer_calls config cid gifts) w1).1 in
     res2.1 = Return (successes items) ∧
     successes items = Z.of_nat (length gifts) - failures items ∧
     items.*1 = transfer_calls config cid gifts ∧
     trace res2.2 = (trace st ++ (enum2, Result (VGifts gifts)) :: items)%list) ∧
  (∀ e, (api enum1 (world st)).1 = Error e →
     res1.1 = Return 0 ∧ trace res1.2 = (trace st ++ [(enum1, Error e)])%list) ∧
  (∀ r, (api enum2 (world st)).1 = r →
     (∃ e, r = Error e) ∨ r = Result (VGifts []) →
     res2.1 = Return 0 ∧ trace res2.2 = (trace st ++ [(enum2, r)])%list) ∧
  (∀ e, (api query (world st)).1 = Error e →
     res3.1 = Return 0 ∧ trace res3.2 = (trace st ++ [(query, Error e)])%list) ∧
  (∀ stars w1, api query (world st) = (Result (VStars stars), w1) →
     amount stars ≤ 0 →
     res3.1 = Return 0 ∧
     trace res3.2 = (trace st ++ [(query, Result (VStars stars))])%list) ∧
  (∀ stars w1, api query (world st) = (Result (VStars stars), w1) →
     amount stars > 0 →
     let transfer := TransferBusinessAccountStars cid (amount stars) in
     let r := (api transfer w1).1 in
     res3.1 = Return (if failed r then 0 else amount stars) ∧
     trace res3.2 =
       (trace st ++ [(query, Result (VStars stars)); (transfer, r)])%list).
Proof.
  intros enum1 enum2 query res1 res2 res3. subst res1 res2 res3.
  split_and!.
  - apply convert_non_unique_gifts_to_stars_returns.
  - apply transfer_unique_gifts_returns.
  - apply transfer_remaining_stars_returns.
  - intros username.
    destruct (process_connected_account_run cid username st)
      as (c & t & s & _ & _ & _ & ->). eauto.
  - intros gifts w1 Hgifts items. subst items.
    rewrite convert_non_unique_gifts_to_stars_run. cbn zeta. fold enum1. rewrite Hgifts.
    pose proof (counts_of_items (convert_calls cid gifts) w1) as Hc.
    unfold convert_calls in Hc at 3 4 5. rewrite length_fmap in Hc.
    split_and!; [done|apply Hc|apply Hc|done].
  - intros gifts w1 Hgifts items. subst items.
    rewrite transfer_unique_gifts_run. cbn zeta. fold enum2. rewrite Hgifts.
    pose proof (counts_of_items (transfer_calls config cid gifts) w1) as Hc.
    unfold transfer_calls in Hc at 3 4 5. rewrite length_fmap in Hc.
    split_and!; [done|apply Hc|apply Hc|done].
  - intros e He. rewrite convert_non_unique_gifts_to_stars_run. cbn zeta. fold enum1.
    destruct (api enum1 (world st)) as [r w1]. simpl in He. by subst r.
  - intros r Hr Hcase. rewrite transfer_unique_gifts_run. cbn zeta. fold enum2.
    destruct (api enum2 (world st)) as [r' w1]. simpl in Hr. subst r'.
    by destruct Hcase as [[e ->]| ->].
  - intros e He. rewrite transfer_remaining_stars_run. cbn zeta. fold query.
    destruct (api query (world st)) as [r w1]. simpl in He. by subst r.
  - intros stars w1 Hq Hle. rewrite transfer_remaining_stars_run. cbn zeta. fold query.
    rewrite Hq. rewrite bool_decide_eq_false_2 by lia. done.
  - intros stars w1 Hq Hgt transfer r. subst r.
    rewrite transfer_remaining_stars_run. cbn zeta. fold query.
    rewrite Hq. rewrite bool_decide_eq_true_2 by lia. fold transfer.
    by destruct (api transfer w1) as [r w2].
Qed.

(** ** Business messages *)

Lemma get_message_run (message : Message) st :
  get_message config message st =
  let business_id := Message_business_connection_id message in
  if decide (User_id (Message_from_user message) = RECIPIENT_ID config) then (Return tt, st)
  else
    match head (filter (fun c => business_connection_id c = business_id)
                  (connections_data st)) with
    | Some connection =>
        (Return tt,
         State (connections_data st) (world st) (trace st)
               (tasks st ++ [(business_id, username connection)]))
    | None => (Return tt, st)
    end.
Proof.
  unfold get_message. cbn zeta. case_decide; [done|].
  unfold bind, load_connections. by destruct (head _).
Qed.

(** C8, as the code has it: a business message whose connection id no
    stored record carries leaves the whole state as it was: no run is
    scheduled and the list is not changed.  When some stored record carries
    it and the sender is not [RECIPIENT_ID], one run is scheduled, for that
    connection id and the user name of the first such record, and the list
    is not changed. *)
Theorem get_message_lookup (message : Message) st :
  let business_id := Message_business_connection_id message in
  (Forall (fun c => business_connection_id c ≠ business_id) (connections_data st) →
     get_message config message st = (Return tt, st)) ∧
  (User_id (Message_from_user message) ≠ RECIPIENT_ID config →
   ∀ before connection after,
     connections_data st = (before ++ connection :: after)%list →
     Forall (fun c => business_connection_id c ≠ business_id) before →
     business_connection_id connection = business_id →
     get_message config message st =
     (Return tt,
      State (connections_data st) (world st) (trace st)
            (tasks st ++ [(business_id, username connection)]))).
Proof.
  intros business_id. rewrite get_message_run. cbn zeta. subst business_id. split.
  - intros Hall. case_decide; [done|]. by rewrite filter_none.
  - intros Hsender before connection after Hst Hbefore Hconn.
    rewrite decide_False by done. rewrite Hst at 1. rewrite filter_app.
    rewrite filter_none by done. by rewrite filter_cons, decide_True.
Qed.

(** C10: a business message sent by [RECIPIENT_ID] leaves the whole state
    as it was, whatever the stored list holds: no run is scheduled, the
    list is not changed and no call is put to the client. *)
Theorem get_message_from_recipient (message : Message) st :
  User_id (Message_from_user message) = RECIPIENT_ID config →
  get_message config message st = (Return tt, st).
Proof. intros Heq. rewrite get_message_run. cbn zeta. by rewrite decide_True. Qed.

End Proofs.

(** ** The list handed out by [load_connections] *)

Section Snapshot.

Import PyHeap.

Implicit Types (h : heap) (m : mutation) (l : loc).

Lemma load_connections_fresh h :
  is_Some (lists h !! PyHeap.connections_data h) →
  (load_connections h).1 ≠ PyHeap.connections_data h.
Proof.
  intros Hsome Heq. apply (is_fresh (dom (lists h))).
  unfold load_connections, list_copy in Heq. cbn [fst] in Heq. rewrite Heq.
  by apply elem_of_dom.
Qed.

Lemma load_connections_refs h :
  lists (load_connections h).2 !! (load_connections h).1 = Some (store_refs h).
Proof.
  unfold load_connections, list_copy. cbn [fst snd lists]. by rewrite lookup_insert_eq.
Qed.

Lemma agrees_load_connections h :
  is_Some (lists h !! PyHeap.connections_data h) → agrees h (load_connections h).2.
Proof.
  intros Hsome. pose proof (load_connections_fresh h Hsome) as Hne.
  unfold load_connections, list_copy in *. cbn [fst snd] in *.
  split_and!; [done| |done]. cbn [lists]. by rewrite lookup_insert_ne.
Qed.

Lemma agrees_apply_mutation h h' l m :
  l ≠ PyHeap.connections_data h → on_list l m → agrees h h' →
  agrees h (apply_mutation m h').
Proof.
  intros Hne Hm (Hg & Hl & Hd).
  destruct m as [l' i d|l' d|l' i|l'|d f]; simpl in Hm; [subst l'..|done];
    (split_and!; [done| |done]); cbn [lists apply_mutation]; by rewrite lookup_alter_ne.
Qed.

Lemma agrees_store h h' :
  agrees h h' → store_refs h' = store_refs h ∧ store_view h' = store_view h.
Proof.
  intros (Hg & Hl & Hd). unfold store_view, store_refs. by rewrite Hg, Hl, Hd.
Qed.

(** C9, as the code has it: the list [load_connections] returns is a new
    list object holding the references the store's list holds.  Whatever
    the caller then does to that list object (assigning to an index,
    appending, deleting an entry, clearing it), any number of times, the
    variable [connections_data], the list it is bound to and the dicts are
    as before, so the store holds the same records. *)
Theorem load_connections_snapshot h (ms : list mutation) :
  is_Some (lists h !! PyHeap.connections_data h) →
  let l := (load_connections h).1 in
  let h1 := (load_connections h).2 in
  Forall (on_list l) ms →
  let h2 := foldl (fun h m => apply_mutation m h) h1 ms in
  l ≠ PyHeap.connections_data h ∧
  lists h1 !! l = Some (store_refs h) ∧
  PyHeap.connections_data h2 = PyHeap.connections_data h ∧
  dicts h2 = dicts h ∧
  store_refs h2 = store_refs h ∧
  store_view h2 = store_view h.
Proof.
  intros Hsome l h1 Hms h2.
  pose proof (load_connections_fresh h Hsome) as Hne. fold l in Hne.
  assert (agrees h h2) as Hagree.
  { subst h2. pose proof (agrees_load_connections h Hsome) as H1. fold h1 in H1.
    clearbody h1 l. revert h1 H1.
    induction Hms as [|m ms Hm Hms IH]; intros h1 H1; [done|].
    simpl. apply IH. by apply (agrees_apply_mutation h h1 l). }
  destruct (agrees_store h h2 Hagree) as [Hrefs Hview].
  destruct Hagree as (Hg & _ & Hd).
  split_and!; [done|apply load_connections_refs|done..].
Qed.

End Snapshot.

(** * The theorems at concrete inputs *)

(** ** The specification's scenario *)

Example scenario_new_connection :
  connections_data
    (handle_business_connection scripted frozen_clock (example_config 25)
       (new_connection "H1" 42 (Some "alice")) (empty_state [])).2 =
  [stored 42 "alice" "H1"].
Proof. reflexivity. Qed.

Example scenario_run :
  (process_connected_account scripted (example_config 25) "H1" "alice"
     (empty_state scenario)).1 = Return (3, 2, 10).
Proof. reflexivity. Qed.

Example scenario_cost : cost_line (example_config 25) 2 = "💰 Total transfer cost: 50 stars".
Proof. reflexivity. Qed.

Example cost_fee_0 : cost_line (example_config 0) 2 = "💰 Total transfer cost: 0 stars".
Proof. reflexivity. Qed.

Example cost_fee_100 : cost_line (example_config 100) 2 = "💰 Total transfer cost: 200 stars".
Proof. reflexivity. Qed.

(** ** Witnesses *)

Lemma one_record_per_owner_witness :
  let e1 := new_connection "H1" 1 (Some "alice") in
  let e2 := new_connection "H2" 2 None in
  let e3 := new_connection "H3" 1 (Some "alicia") in
  User_id (BusinessConnection_user e1) = User_id (BusinessConnection_user e3) ∧
  User_id (BusinessConnection_user e1) ≠ User_id (BusinessConnection_user e2) ∧
  length (connections_data
            (handle_business_connections scripted frozen_clock (example_config 25)
               [e1; e2; e3] (empty_state []))) = 2%nat.
Proof.
  intros e1 e2 e3. split; [reflexivity|]. split; [discriminate|].
  apply (proj2 (one_record_per_owner scripted frozen_clock (example_config 25))
           e1 e2 e3 []); [reflexivity|discriminate].
Defined.

Lemma remove_invalid_connection_spec_witness :
  Forall (fun conn => connection_id conn ≠ "H9") (connections_data (two_stored [])) ∧
  remove_invalid_connection "H9" (two_stored []) = (Return false, two_stored []) ∧
  Exists (fun conn => connection_id conn = "H1") (connections_data (two_stored [])) ∧
  (remove_invalid_connection "H1" (two_stored [])).1 = Return true.
Proof.
  assert (Forall (fun conn => connection_id conn ≠ "H9")
                 (connections_data (two_stored []))) as Habsent
    by (repeat constructor; discriminate).
  assert (Exists (fun conn => connection_id conn = "H1")
                 (connections_data (two_stored []))) as Hpresent
    by (left; reflexivity).
  split; [exact Habsent|]. split.
  - exact (proj1 (remove_invalid_connection_spec "H9" (two_stored [])) Habsent).
  - split; [exact Hpresent|].
    exact (proj1 (proj2 (remove_invalid_connection_spec "H1" (two_stored [])) Hpresent)).
Defined.

Lemma check_permissions_spec_witness :
  let e := TelegramBadRequest "Telegram server says - Bad Request: BUSINESS_CONNECTION_INVALID" in
  let st := two_stored [Error e] in
  (scripted (Request_getBusinessAccountStarBalance "H1") (world st)).1 = Error e ∧
  delegation_invalid e = true ∧
  (check_permissions scripted "H1" st).1 = Return false ∧
  connections_data (check_permissions scripted "H1" st).2 = [stored 2 "bob" "H2"].
Proof.
  intros e st. split; [reflexivity|]. split; [reflexivity|].
  destruct (check_permissions_spec scripted "H1" st) as (_ & _ & Hinvalid & _).
  destruct (Hinvalid e eq_refl eq_refl) as (Hres & Hstore & _).
  split; [exact Hres|]. rewrite Hstore. reflexivity.
Defined.

Lemma per_item_counts_witness :
  let st := empty_state one_of_three_fails in
  let gifts := [gift "g1"; gift "g2"; gift "g3"] in
  scripted (GetBusinessAccountGifts "H1" true) (world st) =
    (Result (VGifts gifts), [ok; boom; ok]) ∧
  scripted (GetBusinessAccountGifts "H1" false) (world st) =
    (Result (VGifts gifts), [ok; boom; ok]) ∧
  (convert_non_unique_gifts_to_stars scripted "H1" st).1 = Return 2 ∧
  (transfer_unique_gifts scripted (example_config 25) "H1" st).1 = Return 2.
Proof.
  intros st gifts. split; [reflexivity|]. split; [reflexivity|].
  destruct (per_item_counts scripted (example_config 25) "H1" st) as [Hconvert Htransfer].
  destruct (Hconvert gifts [ok; boom; ok] eq_refl) as (Hc & _).
  destruct (Htransfer gifts [ok; boom; ok] eq_refl) as (Ht & _).
  split; [exact Hc|exact Ht].
Defined.

Lemma reported_cost_witness :
  ∃ c t s (sends : list (call * reply)),
    (process_connected_account scripted (example_config 25) "H1" "alice"
       (empty_state scenario)).1 = Return (c, t, s) ∧
    t * TRANSFER_FEE (example_config 25) = 50 ∧
    sends.*1 =
      (fun admin_id =>
         SendMessage admin_id
           (summary_head "alice" c t s +:+ "💰 Total transfer cost: 50 stars"))
      <$> [1001; 1002].
Proof.
  destruct (reported_cost scripted (example_config 25) "H1" "alice" (empty_state scenario))
    as (c & t & s & sends & Ht & Hres & _ & Hsends & _).
  exists c, t, s, sends.
  assert (t = 2) as -> by (vm_compute in Ht; congruence).
  split; [exact Hres|]. split; [reflexivity|]. exact Hsends.
Defined.

Lemma notification_fanout_witness :
  let res :=
    process_connected_account scripted (example_config 25) "H1" "alice"
      (empty_state scenario) in
  res.1 = Return (3, 2, 10) ∧
  (filter (fun cr => failed cr.2 = true) (drop 9 (trace res.2))).*1 =
    [SendMessage 1001 (summary (example_config 25) "alice" 3 2 10)] ∧
  (drop 9 (trace res.2)).*1 =
    [SendMessage 1001 (summary (example_config 25) "alice" 3 2 10);
     SendMessage 1002 (summary (example_config 25) "alice" 3 2 10)].
Proof.
  intros res.
  destruct (notification_fanout scripted (example_config 25) "H1" "alice"
              (empty_state scenario)) as (c & t & s & Hc & Ht & Hs & Hres & Htrace & _).
  fold res in Hres, Htrace.
  assert (c = 3) as -> by (vm_compute in Hc; congruence).
  assert (t = 2) as -> by (vm_compute in Ht; congruence).
  assert (s = 10) as -> by (vm_compute in Hs; congruence).
  split; [exact Hres|]. rewrite Htrace. split; reflexivity.
Defined.

Lemma steps_return_witness :
  let st := empty_state [Result (VStars {| amount := 10 |}); boom] in
  let st' := empty_state [Result (VGifts [gift "g1"; gift "g2"]); ok; boom] in
  scripted (GetBusinessAccountStarBalance "H1") (world st) =
    (Result (VStars {| amount := 10 |}), [boom]) ∧
  amount {| amount := 10 |} > 0 ∧
  (transfer_remaining_stars scripted "H1" st).1 = Return 0 ∧
  (transfer_unique_gifts scripted (example_config 25) "H1" (empty_state [boom])).1 = Return 0 ∧
  trace (transfer_unique_gifts scripted (example_config 25) "H1" (empty_state [boom])).2 =
    [(GetBusinessAccountGifts "H1" false, boom)] ∧
  scripted (GetBusinessAccountGifts "H1" true) (world st') =
    (Result (VGifts [gift "g1"; gift "g2"]), [ok; boom]) ∧
  (convert_non_unique_gifts_to_stars scripted "H1" st').1 = Return 1 ∧
  (transfer_unique_gifts scripted (example_config 25) "H1" st').1 = Return 1.
Proof.
  intros st st'. split; [reflexivity|]. split; [reflexivity|].
  destruct (steps_return scripted (example_config 25) "H1" st)
    as (_ & _ & _ & _ & _ & _ & _ & Hpositive).
  destruct (Hpositive {| amount := 10 |} [boom] eq_refl eq_refl) as [Hres _].
  split; [exact Hres|].
  destruct (steps_return scripted (example_config 25) "H1" (empty_state [boom]))
    as (_ & _ & _ & _ & Hnone & _).
  destruct (Hnone boom eq_refl (or_introl (ex_intro _ (OtherException "boom") eq_refl)))
    as [Hzero Htrace].
  split; [exact Hzero|]. split; [exact Htrace|]. split; [reflexivity|].
  destruct (steps_return scripted (example_config 25) "H1" st')
    as (_ & Hconvert & Htransfer & _).
  destruct (Hconvert [gift "g1"; gift "g2"] [ok; boom] eq_refl) as [Hc _].
  destruct (Htransfer [gift "g1"; gift "g2"] [ok; boom] eq_refl) as [Ht _].
  split; [exact Hc|exact Ht].
Defined.

Lemma get_message_lookup_witness :
  let st := two_stored [] in
  let message := business_message "H2" 2 in
  User_id (Message_from_user message) ≠ RECIPIENT_ID (example_config 25) ∧
  get_message (example_config 25) (business_message "H7" 2) st = (Return tt, st) ∧
  tasks (get_message (example_config 25) message st).2 = [("H2", "bob")].
Proof.
  intros st message. split; [discriminate|].
  split.
  - apply (proj1 (get_message_lookup (example_config 25) (business_message "H7" 2) st)).
    repeat constructor; discriminate.
  - rewrite (proj2 (get_message_lookup (example_config 25) message st)
               ltac:(discriminate) [stored 1 "alice" "H1"] (stored 2 "bob" "H2") []
               eq_refl ltac:(repeat constructor; discriminate) eq_refl).
    reflexivity.
Defined.

Lemma get_message_from_recipient_witness :
  let st := two_stored [] in
  let message := business_message "H2" 9000 in
  User_id (Message_from_user message) = RECIPIENT_ID (example_config 25) ∧
  get_message (example_config 25) message st = (Return tt, st).
Proof.
  intros st message. split; [reflexivity|].
  apply (get_message_from_recipient (example_config 25) message st). reflexivity.
Defined.

Lemma load_connections_snapshot_witness :
  let l := (PyHeap.load_connections PyHeap.one_record).1 in
  let ms := [PyHeap.ListAppend l 1%positive; PyHeap.ListDelItem l 0; PyHeap.ListClear l] in
  is_Some (PyHeap.lists PyHeap.one_record
             !! PyHeap.connections_data PyHeap.one_record) ∧
  Forall (PyHeap.on_list l) ms ∧
  PyHeap.store_view
    (foldl (fun h m => PyHeap.apply_mutation m h)
       (PyHeap.load_connections PyHeap.one_record).2 ms) =
  PyHeap.store_view PyHeap.one_record.
Proof.
  intros l ms.
  assert (is_Some (PyHeap.lists PyHeap.one_record
                     !! PyHeap.connections_data PyHeap.one_record)) as Hsome
    by (eexists; reflexivity).
  assert (Forall (PyHeap.on_list l) ms) as Hms by (repeat constructor).
  split; [exact Hsome|]. split; [exact Hms|].
  exact (proj2 (proj2 (proj2 (proj2 (proj2
           (load_connections_snapshot PyHeap.one_record ms Hsome Hms)))))).
Defined.

(** ** Counterexamples *)

(** C6 as stated: with two gifts enumerated, the first converted and the
    second conversion raising, the exception is caught and the step
    returns 1, not 0. *)
Lemma zero_on_any_exception_fails : ¬ zero_on_any_exception.
Proof.
  intros Hclaim.
  specialize (Hclaim (list reply) scripted "H1"
                (empty_state [Result (VGifts [gift "g1"; gift "g2"]); ok; boom])
                eq_refl).
  assert (Return 1 = Return 0 :> outcome Z) as Habsurd; [|discriminate].
  apply Hclaim.
  exists (ConvertGiftToStars "H1" "g2"), (OtherException "boom").
  vm_compute. do 2 right. left.
Qed.

(** C8 as stated: a business message from [RECIPIENT_ID] whose connection
    id is that of a stored record schedules no run. *)
Lemma run_for_every_stored_handle_fails : ¬ run_for_every_stored_handle.
Proof.
  intros Hclaim.
  destruct (Hclaim (list reply) (example_config 25) (business_message "H2" 9000)
              (two_stored []) (stored 2 "bob" "H2")) as [label Htasks].
  - right. left.
  - reflexivity.
  - vm_compute in Htasks. discriminate.
Qed.

(** C9 as stated: assigning to a key of a dict reached through the
    returned list changes the record the store holds. *)
Lemma snapshot_of_records_fails : ¬ PyHeap.snapshot_of_records.
Proof.
  intros Hclaim.
  specialize (Hclaim PyHeap.one_record
                (PyHeap.DictUpdate 1%positive (PyHeap.set_username "mallory"))).
  assert (PyHeap.store_view PyHeap.one_record = [stored 42 "alice" "H1"]) as Hbefore.
  { vm_compute. reflexivity. }
  rewrite Hbefore in Hclaim.
  assert ([PyHeap.set_username "mallory" (stored 42 "alice" "H1")] =
          [stored 42 "alice" "H1"]) as Habsurd; [|discriminate].
  rewrite <- Hclaim.
  - vm_compute. reflexivity.
  - eexists. reflexivity.
  - vm_compute. left.
Qed.

(** * Further properties of the registry and the run *)

Section Registry.

Context {W : Type}.
Variable api : call → W → reply * W.
Variable time_time : W → string * W.
Variable config : Config.

Implicit Types (st : @state W) (cid : string).

(** ** What a run leaves alone *)

Lemma process_connected_account_state cid (username : string) st :
  ∃ w tr,
    (process_connected_account api config cid username st).2 =
    State (connections_data st) w (trace st ++ tr) (tasks st).
Proof.
  destruct (process_connected_account_run api config cid username st)
    as (c & t & s & _ & _ & _ & ->). cbn zeta. cbn [snd].
  set (st1 := (convert_non_unique_gifts_to_stars api cid st).2).
  set (st2 := (transfer_unique_gifts api config cid st1).2).
  set (st3 := (transfer_remaining_stars api cid st2).2).
  assert (∃ w1 tr1, st1 = State (connections_data st) w1 (trace st ++ tr1) (tasks st))
    as (w1 & tr1 & H1).
  { subst st1. rewrite convert_non_unique_gifts_to_stars_run. cbn zeta.
    destruct (api _ (world st)) as [[[|gifts|stars]|e] w1]; cbn [snd]; eauto. }
  assert (∃ w2 tr2, st2 = State (connections_data st) w2 (trace st ++ tr2) (tasks st))
    as (w2 & tr2 & H2).
  { subst st2. rewrite transfer_unique_gifts_run. cbn zeta. rewrite H1.
    cbn [world trace connections_data tasks].
    destruct (api _ w1) as [[[|gifts|stars]|e] w2]; cbn [snd];
      rewrite <- app_assoc; eauto. }
  assert (∃ w3 tr3, st3 = State (connections_data st) w3 (trace st ++ tr3) (tasks st))
    as (w3 & tr3 & H3).
  { subst st3. rewrite transfer_remaining_stars_run. cbn zeta. rewrite H2.
    cbn [world trace connections_data tasks].
    destruct (api _ w2) as [[[|gifts|stars]|e] w3]; cbn [snd];
      try (rewrite <- app_assoc; by eauto).
    case_bool_decide; [destruct (api _ w3) as [r w4]|]; cbn [snd];
      rewrite <- app_assoc; eauto. }
  rewrite H3. cbn [world trace connections_data tasks]. rewrite <- app_assoc. eauto.
Qed.

(** X1: a run of [process_connected_account] never writes the connection
    list and never schedules a task, whatever the client answers, errors
    naming the connection as invalid included; the calls it makes are added
    after the trace it started with. *)
Theorem process_connected_account_frame cid (username : string) st :
  let st' := (process_connected_account api config cid username st).2 in
  connections_data st' = connections_data st ∧
  tasks st' = tasks st ∧
  ∃ tr, trace st' = (trace st ++ tr)%list.
Proof.
  intros st'. subst st'.
  destruct (process_connected_account_state cid username st) as (w & tr & ->).
  eauto.
Qed.

(** ** One record per owner, under every operation *)

(** X2: when no two stored records have the same [user_id], that is still
    so after a new connection, after a removal, after a permission check,
    after a business message and after a run. *)
Theorem owner_ids_NoDup_preserved st :
  NoDup (owner_ids (connections_data st)) →
  (∀ connection,
     NoDup (owner_ids (connections_data
       (handle_business_connection api time_time config connection st).2))) ∧
  (∀ cid, NoDup (owner_ids (connections_data (remove_invalid_connection cid st).2))) ∧
  (∀ cid, NoDup (owner_ids (connections_data (check_permissions api cid st).2))) ∧
  (∀ message, NoDup (owner_ids (connections_data (get_message config message st).2))) ∧
  (∀ cid username,
     NoDup (owner_ids (connections_data
       (process_connected_account api config cid username st).2))).
Proof.
  intros Hst. split_and!.
  - intros connection. rewrite handle_business_connection_store.
    by apply NoDup_update_or_append.
  - intros cid. rewrite remove_invalid_connection_store.
    by apply NoDup_owner_ids_filter.
  - intros cid. rewrite check_permissions_run. cbn zeta.
    destruct (api _ (world st)).1 as [v|e]; [done|]. cbn [snd connections_data].
    destruct (delegation_invalid e); [|done]. by apply NoDup_owner_ids_filter.
  - intros message. rewrite get_message_run. cbn zeta.
    case_decide; [done|]. by destruct (head _).
  - intros cid username.
    destruct (process_connected_account_state cid username st) as (w & tr & ->). done.
Qed.

(** ** The effect of a new connection *)

Lemma update_or_append_split (d : connection_dict) (l : list connection_dict) :
  ∃ before after rest,
    update_or_append d l = (before ++ d :: after)%list ∧
    l = (before ++ rest)%list ∧
    Forall (fun c => user_id c ≠ user_id d) before.
Proof.
  induction l as [|c l (before & after & rest & Hu & Hl & Hb)].
  - exists [], [], []. by rewrite update_or_append_nil.
  - rewrite update_or_append_cons. destruct (decide (user_id c = user_id d)).
    + by exists [], l, (c :: l).
    + exists (c :: before), after, rest. rewrite Hu. split_and!; [done| |by constructor].
      by rewrite Hl at 1.
Qed.

Lemma update_or_append_others (d : connection_dict) (l : list connection_dict) :
  filter (fun c => user_id c ≠ user_id d) (update_or_append d l) =
  filter (fun c => user_id c ≠ user_id d) l.
Proof.
  induction l as [|c l IH].
  - rewrite update_or_append_nil. by rewrite filter_cons, decide_False by (by intros ?).
  - rewrite update_or_append_cons. destruct (decide (user_id c = user_id d)) as [Heq|Hne].
    + by rewrite !filter_cons, !decide_False by (by intros ?).
    + by rewrite !filter_cons, !decide_True, IH by done.
Qed.

Lemma update_or_append_length (d : connection_dict) (l : list connection_dict) :
  length (update_or_append d l) =
  if decide (user_id d ∈ owner_ids l) then length l else S (length l).
Proof.
  pose proof (owner_ids_update_or_append d l) as H.
  apply (f_equal length) in H. unfold owner_ids in H at 1. rewrite length_fmap in H.
  rewrite H. case_decide; unfold owner_ids; rewrite ?length_app, length_fmap; simpl; lia.
Qed.

(** X3: [handle_business_connection] always returns; afterwards the list
    holds the record built from the event, the records of the other owners
    are the ones held before, in the same order, the list is one longer if
    the owner was not yet in it and as long as before otherwise, exactly
    one run is scheduled, for the event's connection id and user name
    ("Unknown" when there is none), and the notifications put to the
    client are exactly one per entry of [ADMIN_IDS], in the order of the
    list, each with the new-connection text. *)
Theorem handle_business_connection_effect (connection : BusinessConnection) st :
  let owner := User_id (BusinessConnection_user connection) in
  let res := handle_business_connection api time_time config connection st in
  res.1 = Return tt ∧
  (∃ t, record_of connection t ∈ connections_data res.2) ∧
  filter (fun c => user_id c ≠ owner) (connections_data res.2) =
    filter (fun c => user_id c ≠ owner) (connections_data st) ∧
  length (connections_data res.2) =
    (if decide (owner ∈ owner_ids (connections_data st))
     then length (connections_data st) else S (length (connections_data st))) ∧
  tasks res.2 =
    (tasks st ++ [(BusinessConnection_id connection,
                   py_or (User_username (BusinessConnection_user connection)) "Unknown")])%list ∧
  ∃ sends,
    trace res.2 = (trace st ++ sends)%list ∧
    sends.*1 =
      (fun admin_id =>
         SendMessage admin_id
           (new_connection_text
              (py_or (User_username (BusinessConnection_user connection)) "Unknown")
              owner (BusinessConnection_id connection)))
      <$> ADMIN_IDS config ∧
    length sends = length (ADMIN_IDS config).
Proof.
  intros owner res. subst res. rewrite handle_business_connection_run. cbn zeta.
  cbn [fst snd connections_data tasks trace].
  set (d := record_of connection (time_time (world st)).1).
  split_and!; [done| | | |done|].
  - exists (time_time (world st)).1. fold d.
    destruct (update_or_append_split d (connections_data st))
      as (before & after & rest & -> & _ & _).
    apply elem_of_app. right. left.
  - apply (update_or_append_others d).
  - apply (update_or_append_length d).
  - eexists. split; [done|]. rewrite run_calls_calls, run_calls_length.
    unfold send_calls. by rewrite length_fmap.
Qed.

End Registry.

(** ** The substring test *)

Lemma prefix_app (sub post : string) : String.prefix sub (sub +:+ post) = true.
Proof.
  induction sub as [|a sub IH]; simpl; [by destruct post|].
  by destruct (ascii_dec a a).
Qed.

Lemma prefix_split (sub s : string) :
  String.prefix sub s = true → ∃ post, s = sub +:+ post.
Proof.
  revert s. induction sub as [|a sub IH]; intros s Hp; [by exists s|].
  destruct s as [|b s]; [done|]. simpl in Hp.
  destruct (ascii_dec a b) as [->|]; [|done].
  destruct (IH s Hp) as [post ->]. by exists post.
Qed.

(** [py_in sub s] holds exactly when [sub] occurs in [s] as a run of
    consecutive characters. *)
Lemma py_in_spec (sub s : string) :
  py_in sub s = true ↔ ∃ pre post, s = pre +:+ sub +:+ post.
Proof.
  split.
  - induction s as [|a s IH]; cbn [py_in]; intros H;
      apply orb_true_iff in H as [H|H]; try done.
    + destruct (prefix_split _ _ H) as [post ->]. by exists "", post.
    + destruct (prefix_split _ _ H) as [post ->]. by exists "", post.
    + destruct (IH H) as (pre & post & ->). by exists (String a pre), post.
  - intros (pre & post & ->). induction pre as [|a pre IH].
    + change ("" +:+ sub +:+ post) with (sub +:+ post).
      destruct (sub +:+ post) eqn:E; cbn [py_in]; rewrite <- E, prefix_app; done.
    + change (String a pre +:+ sub +:+ post) with (String a (pre +:+ sub +:+ post)).
      cbn [py_in]. rewrite IH. apply orb_true_r.
Qed.

Section Composition.

Context {W : Type}.
Variable api : call → W → reply * W.
Variable time_time : W → string * W.
Variable config : Config.

Implicit Types (st : @state W) (cid : string).

(** X4: [check_permissions] drops the records with the probed connection
    id when the probe raises [TelegramBadRequest] or [TelegramNotFound]
    with BUSINESS_CONNECTION_INVALID anywhere in its text; and the stored
    list differs afterwards only when the probe raised one of these two
    with that text inside. *)
Theorem check_permissions_removes cid st :
  let r := (api (Request_getBusinessAccountStarBalance cid) (world st)).1 in
  let st' := (check_permissions api cid st).2 in
  (∀ pre post,
     r = Error (TelegramBadRequest (pre +:+ "BUSINESS_CONNECTION_INVALID" +:+ post)) ∨
     r = Error (TelegramNotFound (pre +:+ "BUSINESS_CONNECTION_INVALID" +:+ post)) →
     connections_data st' =
       filter (fun conn => connection_id conn ≠ cid) (connections_data st)) ∧
  (connections_data st' ≠ connections_data st →
   ∃ pre post,
     r = Error (TelegramBadRequest (pre +:+ "BUSINESS_CONNECTION_INVALID" +:+ post)) ∨
     r = Error (TelegramNotFound (pre +:+ "BUSINESS_CONNECTION_INVALID" +:+ post))).
Proof.
  intros r st'. subst r st'. rewrite check_permissions_run. cbn zeta.
  destruct (api _ (world st)).1 as [v|e]; cbn [snd connections_data].
  - split; [by intros pre post [?|?]|done].
  - split.
    + intros pre post [[= ->]|[= ->]]; cbn [delegation_invalid];
        (rewrite (proj2 (py_in_spec _ _)); [done|by eauto]).
    + destruct (delegation_invalid e) eqn:He; [|done]. intros _.
      destruct e as [s|s|s]; cbn [delegation_invalid] in He; [| |done];
        apply py_in_spec in He as (pre & post & ->); eauto.
Qed.

(** X5: a second [remove_invalid_connection] with the same connection id
    finds nothing: it returns [False] and leaves the state as the first
    call left it. *)
Theorem remove_invalid_connection_twice cid st :
  remove_invalid_connection cid (remove_invalid_connection cid st).2 =
  (Return false, (remove_invalid_connection cid st).2).
Proof.
  apply remove_invalid_connection_absent.
  rewrite remove_invalid_connection_store.
  apply Forall_forall. by intros c [? _]%list_elem_of_filter.
Qed.

Lemma update_or_append_new (d : connection_dict) (l : list connection_dict) :
  user_id d ∉ owner_ids l → update_or_append d l = (l ++ [d])%list.
Proof.
  induction l as [|c l IH]; intros Hnew; [done|].
  unfold owner_ids in Hnew. rewrite fmap_cons, not_elem_of_cons in Hnew.
  destruct Hnew as [Hne Hnew].
  rewrite update_or_append_cons, decide_False by done. by rewrite IH.
Qed.

(** X6: a new connection followed by the removal of its connection id:
    the removal returns [True] and no record with that id is left; when
    neither the owner nor the connection id was in the list before the
    connection, the list is back to what it was. *)
Theorem new_connection_then_removal (connection : BusinessConnection) st :
  let cid := BusinessConnection_id connection in
  let st1 := (handle_business_connection api time_time config connection st).2 in
  let res := remove_invalid_connection cid st1 in
  res.1 = Return true ∧
  Forall (fun c => connection_id c ≠ cid) (connections_data res.2) ∧
  (User_id (BusinessConnection_user connection) ∉ owner_ids (connections_data st) →
   Forall (fun c => connection_id c ≠ cid) (connections_data st) →
   connections_data res.2 = connections_data st).
Proof.
  intros cid st1 res. subst res.
  assert (connections_data st1 =
          update_or_append (record_of connection (time_time (world st)).1)
            (connections_data st)) as Hst1
    by apply handle_business_connection_store.
  set (d := record_of connection (time_time (world st)).1) in *.
  rewrite remove_invalid_connection_present.
  2:{ rewrite Hst1. apply Exists_exists. exists d. split; [|done].
      destruct (update_or_append_split d (connections_data st))
        as (before & after & rest & -> & _ & _).
      apply elem_of_app. right. left. }
  cbn [fst snd connections_data]. split_and!; [done| |].
  - apply Forall_forall. by intros c [? _]%list_elem_of_filter.
  - intros Hnew Hcid. rewrite Hst1, update_or_append_new by done.
    rewrite filter_app, filter_all by done.
    rewrite filter_cons, decide_False by (by intros ?). apply app_nil_r.
Qed.

(** X7: a new connection followed by a business message on that
    connection: when no record held before carries the connection id and
    the sender is not [RECIPIENT_ID], the message schedules one run, for
    that connection id and the user name recorded with the connection. *)
Theorem new_connection_then_message (connection : BusinessConnection)
    (message : Message) st :
  let st1 := (handle_business_connection api time_time config connection st).2 in
  Forall (fun c => business_connection_id c ≠ BusinessConnection_id connection)
    (connections_data st) →
  Message_business_connection_id message = BusinessConnection_id connection →
  User_id (Message_from_user message) ≠ RECIPIENT_ID config →
  get_message config message st1 =
  (Return tt,
   State (connections_data st1) (world st1) (trace st1)
         (tasks st1 ++
            [(BusinessConnection_id connection,
              py_or (User_username (BusinessConnection_user connection)) "Unknown")])).
Proof.
  intros st1 Hold Hid Hsender. rewrite get_message_run. cbn zeta.
  rewrite decide_False by done. rewrite Hid.
  assert (connections_data st1 =
          update_or_append (record_of connection (time_time (world st)).1)
            (connections_data st)) as Hst1
    by apply handle_business_connection_store.
  set (d := record_of connection (time_time (world st)).1) in *.
  destruct (update_or_append_split d (connections_data st))
    as (before & after & rest & Hu & Hl & _).
  rewrite Hl in Hold. apply Forall_app in Hold as [Hbefore _].
  rewrite Hst1 at 1. rewrite Hu, filter_app, filter_none by done.
  by rewrite filter_cons, decide_True.
Qed.

(** ** The calls of a run *)

Lemma run_calls_Forall (P : call → Prop) (cs : list call) (w : W) :
  Forall P cs → Forall (fun cr => P cr.1) (run_calls api cs w).1.
Proof.
  intros Hcs. apply Forall_forall. intros [c r] Hin.
  eapply Forall_forall; [exact Hcs|].
  erewrite <- run_calls_calls. apply list_elem_of_fmap. by exists (c, r).
Qed.

Lemma convert_non_unique_gifts_to_stars_trace cid st :
  ∃ r items,
    trace (convert_non_unique_gifts_to_stars api cid st).2 =
      (trace st ++ (GetBusinessAccountGifts cid true, r) :: items)%list ∧
    Forall (fun cr => ∃ g, cr.1 = ConvertGiftToStars cid g) items.
Proof.
  rewrite convert_non_unique_gifts_to_stars_run. cbn zeta.
  destruct (api _ (world st)) as [[[|gifts|stars]|e] w1]; cbn [snd trace];
    try (by eexists _, []).
  eexists _, _. split; [done|].
  apply (run_calls_Forall (fun c => ∃ g, c = ConvertGiftToStars cid g)).
  unfold convert_calls. apply Forall_fmap, Forall_forall. intros g _. by exists (owned_gift_id g).
Qed.

Lemma transfer_unique_gifts_trace cid st :
  ∃ r items,
    trace (transfer_unique_gifts api config cid st).2 =
      (trace st ++ (GetBusinessAccountGifts cid false, r) :: items)%list ∧
    Forall (fun cr => ∃ g, cr.1 = TransferGift cid g (RECIPIENT_ID config)
                                    (TRANSFER_FEE config)) items.
Proof.
  rewrite transfer_unique_gifts_run. cbn zeta.
  destruct (api _ (world st)) as [[[|gifts|stars]|e] w1]; cbn [snd trace];
    try (by eexists _, []).
  eexists _, _. split; [done|].
  apply (run_calls_Forall
           (fun c => ∃ g, c = TransferGift cid g (RECIPIENT_ID config) (TRANSFER_FEE config))).
  unfold transfer_calls. apply Forall_fmap, Forall_forall. intros g _.
  by exists (owned_gift_id g).
Qed.

Lemma transfer_remaining_stars_trace cid st :
  ∃ r items,
    trace (transfer_remaining_stars api cid st).2 =
      (trace st ++ (GetBusinessAccountStarBalance cid, r) :: items)%list ∧
    (items = [] ∨
     ∃ n r', n > 0 ∧ r = Result (VStars {| amount := n |}) ∧
             items = [(TransferBusinessAccountStars cid n, r')]).
Proof.
  rewrite transfer_remaining_stars_run. cbn zeta.
  destruct (api _ (world st)) as [[[|gifts|[n]]|e] w1]; cbn [snd trace];
    try (by eexists _, []; eauto).
  cbn [amount]. case_bool_decide; [|by eexists _, []; eauto].
  destruct (api _ w1) as [r' w2]. cbn [snd trace].
  eexists _, _. split; [done|]. right. by exists n, r'.
Qed.

(** X8: the calls of a run, in the order they are made: the enumeration of
    the non-unique gifts and then only conversions on the run's connection;
    the enumeration of all gifts and then only gift transfers on the run's
    connection, each to [RECIPIENT_ID] with [TRANSFER_FEE]; the balance
    query and then at most one balance transfer, of the positive amount the
    query returned; last the messages, each to an entry of [ADMIN_IDS]. *)
Theorem process_connected_account_calls cid (username : string) st :
  ∃ r1 items1 r2 items2 r3 items3 sends,
    trace (process_connected_account api config cid username st).2 =
      (trace st ++
       ((GetBusinessAccountGifts cid true, r1) :: items1) ++
       ((GetBusinessAccountGifts cid false, r2) :: items2) ++
       ((GetBusinessAccountStarBalance cid, r3) :: items3) ++ sends)%list ∧
    Forall (fun cr => ∃ g, cr.1 = ConvertGiftToStars cid g) items1 ∧
    Forall (fun cr => ∃ g, cr.1 = TransferGift cid g (RECIPIENT_ID config)
                                    (TRANSFER_FEE config)) items2 ∧
    (items3 = [] ∨
     ∃ n r', n > 0 ∧ r3 = Result (VStars {| amount := n |}) ∧
             items3 = [(TransferBusinessAccountStars cid n, r')]) ∧
    Forall (fun cr => ∃ admin_id text, cr.1 = SendMessage admin_id text ∧
                                       admin_id ∈ ADMIN_IDS config) sends.
Proof.
  destruct (process_connected_account_run api config cid username st)
    as (c & t & s & _ & _ & _ & ->). cbn zeta. cbn [snd trace].
  set (st1 := (convert_non_unique_gifts_to_stars api cid st).2).
  set (st2 := (transfer_unique_gifts api config cid st1).2).
  destruct (convert_non_unique_gifts_to_stars_trace cid st) as (r1 & items1 & H1 & P1).
  destruct (transfer_unique_gifts_trace cid st1) as (r2 & items2 & H2 & P2).
  destruct (transfer_remaining_stars_trace cid st2) as (r3 & items3 & H3 & P3).
  fold st1 in H1. fold st2 in H2.
  exists r1, items1, r2, items2, r3, items3.
  eexists. split_and!; [|done|done|done|].
  - rewrite H3, H2, H1. by rewrite <- !app_assoc.
  - apply (run_calls_Forall
             (fun c => ∃ admin_id text, c = SendMessage admin_id text ∧
                                        admin_id ∈ ADMIN_IDS config)).
    unfold send_calls. apply Forall_fmap, Forall_forall. intros a Ha. by eexists _, _.
Qed.

(** X9: [transfer_remaining_stars] returns 0, or the positive amount the
    balance query reported; in the second case a transfer of exactly that
    amount was put to the client right after the query and did not raise. *)
Theorem transfer_remaining_stars_result cid st :
  let res := transfer_remaining_stars api cid st in
  ∃ n,
    res.1 = Return n ∧
    (n = 0 ∨
     n > 0 ∧ ∃ v,
       trace res.2 =
         (trace st ++
          [(GetBusinessAccountStarBalance cid, Result (VStars {| amount := n |}));
           (TransferBusinessAccountStars cid n, Result v)])%list).
Proof.
  intros res. subst res. rewrite transfer_remaining_stars_run. cbn zeta.
  destruct (api _ (world st)) as [[[|gifts|[n]]|e] w1]; cbn [fst snd trace];
    try (by exists 0; eauto).
  cbn [amount]. case_bool_decide as Hn; [|by exists 0; eauto].
  destruct (api _ w1) as [[v|e] w2]; cbn [fst snd trace failed].
  - exists n. split; [done|]. right. eauto.
  - exists 0. eauto.
Qed.

End Composition.

(** * The admin callbacks *)

Lemma split_first_process (cid : string) :
  py_split_1 "_" ("process_" +:+ cid) !! 1%nat = Some cid.
Proof. reflexivity. Qed.

Lemma filter_not_in_cons (cid : string) (cids : list string) (l : list connection_dict) :
  filter (fun c => connection_id c ∉ cids) (filter (fun c => connection_id c ≠ cid) l) =
  filter (fun c => connection_id c ∉ cid :: cids) l.
Proof.
  induction l as [|c l IH]; [done|].
  rewrite (filter_cons (fun c => connection_id c ≠ cid)).
  rewrite (filter_cons (fun c => connection_id c ∉ cid :: cids)).
  destruct (decide (connection_id c ≠ cid)) as [Hne|Heq].
  - rewrite filter_cons. destruct (decide (connection_id c ∉ cids)) as [Hnin|Hin].
    + rewrite decide_True by (by apply not_elem_of_cons). by rewrite IH.
    + rewrite decide_False; [done|]. rewrite not_elem_of_cons. tauto.
  - rewrite decide_False; [done|]. rewrite not_elem_of_cons. tauto.
Qed.

Section AdminProofs.

Context {W : Type}.
Variable api : call → W → reply * W.
Variable ui_api : ui_call → W → reply * W.
Variable config : Config.

Implicit Types (s : @session W) (callback : CallbackQuery).

Lemma access_denied_run callback s :
  access_denied ui_api callback s =
  let c := CallbackAnswer (CallbackQuery_id callback) (Some "Access denied") true in
  (match (ui_api c (world (bot s))).1 with
   | Result _ => Return tt
   | Error e => Raise e
   end,
   Session (State (connections_data (bot s)) (ui_api c (world (bot s))).2
                  (trace (bot s)) (tasks (bot s)))
           (ui_trace s ++ [(c, (ui_api c (world (bot s))).1)])).
Proof.
  unfold access_denied, callback_answer, ui_invoke. cbn zeta.
  by destruct (ui_api _ (world (bot s))) as [[v|e] w].
Qed.

(** X10: pressed by a user who is not in [ADMIN_IDS], each of the five
    admin callbacks only answers the callback query with "Access denied" as
    an alert: the connection list, the scheduled runs and the calls made to
    the client are as before, and nothing is written to the chat.  The
    handler ends as that one answer does. *)
Theorem admin_callbacks_denied (handler : CallbackQuery → H unit) callback s :
  handler ∈ admin_callbacks api ui_api config →
  is_admin config (User_id (CallbackQuery_from_user callback)) = false →
  let c := CallbackAnswer (CallbackQuery_id callback) (Some "Access denied") true in
  let r := (ui_api c (world (bot s))).1 in
  (handler callback s).1 = match r with Result _ => Return tt | Error e => Raise e end ∧
  connections_data (bot (handler callback s).2) = connections_data (bot s) ∧
  tasks (bot (handler callback s).2) = tasks (bot s) ∧
  trace (bot (handler callback s).2) = trace (bot s) ∧
  ui_trace (handler callback s).2 = (ui_trace s ++ [(c, r)])%list.
Proof.
  intros Hin Hdenied c r. subst c r.
  assert (handler callback s = access_denied ui_api callback s) as ->.
  { unfold admin_callbacks in Hin.
    repeat (apply elem_of_cons in Hin as [->|Hin]); [..|by apply elem_of_nil in Hin];
      unfold view_connections_callback, manual_process_callback,
        process_connection_callback, process_all_callback, show_stats_callback;
      by rewrite Hdenied. }
  by rewrite access_denied_run.
Qed.

(** ** Bulk processing *)

Lemma hfor_in_create_tasks (connections : list connection_dict) s :
  hfor_in connections tt (fun connection _ =>
    lift (asyncio_create_task (connection_id connection, username connection))) s =
  (Return tt,
   Session (State (connections_data (bot s)) (world (bot s)) (trace (bot s))
                  (tasks (bot s) ++
                     ((fun c => (connection_id c, username c)) <$> connections)))
           (ui_trace s)).
Proof.
  revert s. induction connections as [|c connections IH]; intros [[cd w tr ts] ui].
  - cbn. by rewrite app_nil_r.
  - cbn [hfor_in]. unfold hbind at 1. unfold lift at 1, asyncio_create_task at 1.
    cbn [bot ui_trace connections_data world trace tasks].
    rewrite IH. cbn [bot ui_trace connections_data world trace tasks].
    by rewrite fmap_cons, <- app_assoc.
Qed.

Lemma ui_invoke_bot (c : ui_call) s :
  connections_data (bot (ui_invoke ui_api c s).2) = connections_data (bot s) ∧
  trace (bot (ui_invoke ui_api c s).2) = trace (bot s) ∧
  tasks (bot (ui_invoke ui_api c s).2) = tasks (bot s).
Proof. unfold ui_invoke. by destruct (ui_api c (world (bot s))) as [[v|e] w]. Qed.

Lemma ui_invoke_twice_bot (c1 c2 : ui_call) s :
  let res := hbind (ui_invoke ui_api c1) (fun _ => ui_invoke ui_api c2) s in
  connections_data (bot res.2) = connections_data (bot s) ∧
  trace (bot res.2) = trace (bot s) ∧
  tasks (bot res.2) = tasks (bot s).
Proof.
  cbn zeta. unfold hbind.
  destruct (ui_invoke_bot c1 s) as (H1 & H2 & H3).
  destruct (ui_invoke ui_api c1 s) as [[[]|e] s1]; cbn [snd] in *; [|done].
  destruct (ui_invoke_bot c2 s1) as (H4 & H5 & H6). by rewrite H4, H5, H6.
Qed.

Lemma process_all_callback_run callback s :
  is_admin config (User_id (CallbackQuery_from_user callback)) = true →
  process_all_callback ui_api config callback s =
  match connections_data (bot s) with
  | [] =>
      hbind (message_answer ui_api callback "No connections to process." None)
            (fun _ => callback_answer ui_api callback None false) s
  | _ =>
      let announcement :=
        MessageAnswer (CallbackQuery_message_chat_id callback)
          ("🔄 Starting bulk processing for " +:+
           str_int (Z.of_nat (length (connections_data (bot s)))) +:+ " connections...")
          None in
      let r := (ui_api announcement (world (bot s))).1 in
      let w1 := (ui_api announcement (world (bot s))).2 in
      let ui := (ui_trace s ++ [(announcement, r)])%list in
      match r with
      | Error e =>
          (Raise e,
           Session (State (connections_data (bot s)) w1 (trace (bot s)) (tasks (bot s))) ui)
      | Result _ =>
          callback_answer ui_api callback (Some "Bulk processing started!") false
            (Session
               (State (connections_data (bot s)) w1 (trace (bot s))
                  (tasks (bot s) ++
                     ((fun c => (connection_id c, username c)) <$> connections_data (bot s))))
               ui)
      end
  end.
Proof.
  intros Hadmin. unfold process_all_callback. rewrite Hadmin. cbn [negb].
  unfold hbind at 1. unfold lift at 1, load_connections.
  destruct s as [[cd w tr ts] ui]. cbn [bot ui_trace connections_data world trace tasks].
  destruct cd as [|c0 cd]; [done|]. cbn zeta.
  unfold hbind at 1. unfold message_answer at 1, ui_invoke at 1.
  cbn [bot ui_trace connections_data world trace tasks].
  destruct (ui_api _ w) as [[v|e] w1]; cbn [fst snd]; [|done].
  unfold hbind at 1. rewrite hfor_in_create_tasks. done.
Qed.

(** X11: pressed by an admin, [process_all_callback] leaves the connection
    list as it is and puts no call to the Telegram client of the runs.
    When the list is not empty and the announcement is delivered, it
    schedules one run per stored record, in the order of the list, each for
    the record's connection id and user name; when the announcement raises,
    the handler raises and schedules nothing. *)
Theorem process_all_callback_schedules callback s :
  is_admin config (User_id (CallbackQuery_from_user callback)) = true →
  let connections := connections_data (bot s) in
  let announcement :=
    MessageAnswer (CallbackQuery_message_chat_id callback)
      ("🔄 Starting bulk processing for " +:+
       str_int (Z.of_nat (length connections)) +:+ " connections...") None in
  let res := process_all_callback ui_api config callback s in
  connections_data (bot res.2) = connections ∧
  trace (bot res.2) = trace (bot s) ∧
  (connections = [] → tasks (bot res.2) = tasks (bot s)) ∧
  (connections ≠ [] →
   ∀ v, (ui_api announcement (world (bot s))).1 = Result v →
   tasks (bot res.2) =
     (tasks (bot s) ++ ((fun c => (connection_id c, username c)) <$> connections))%list) ∧
  (connections ≠ [] →
   ∀ e, (ui_api announcement (world (bot s))).1 = Error e →
   res.1 = Raise e ∧ tasks (bot res.2) = tasks (bot s)).
Proof.
  intros Hadmin connections announcement res. subst res connections announcement.
  rewrite process_all_callback_run by done.
  destruct (connections_data (bot s)) as [|c0 cd] eqn:Hcd.
  - destruct (ui_invoke_twice_bot
                (MessageAnswer (CallbackQuery_message_chat_id callback)
                   "No connections to process." None)
                (CallbackAnswer (CallbackQuery_id callback) None false) s)
      as (H1 & H2 & H3).
    unfold message_answer, callback_answer. rewrite Hcd in H1. by split_and!.
  - cbn zeta.
    destruct (ui_api _ (world (bot s))).1 as [v|e].
    + match goal with |- context [callback_answer ui_api callback ?t ?a ?s0] =>
        destruct (ui_invoke_bot (CallbackAnswer (CallbackQuery_id callback) t a) s0)
          as (H1 & H2 & H3) end.
      unfold callback_answer. cbn [bot connections_data trace tasks] in H1, H2, H3.
      split_and!; [done|done|done|by intros|by intros].
    + cbn [fst snd bot connections_data trace tasks].
      split_and!; [done|done|done|by intros|].
      by intros _ e' [= ->].
Qed.

(** ** Manual processing *)

Lemma process_connection_callback_run callback s (cid : string) (first : connection_dict) :
  is_admin config (User_id (CallbackQuery_from_user callback)) = true →
  py_split_1 "_" (CallbackQuery_data callback) !! 1%nat = Some cid →
  head (filter (fun c => connection_id c = cid) (connections_data (bot s))) = Some first →
  process_connection_callback ui_api config callback s =
  let announcement :=
    MessageAnswer (CallbackQuery_message_chat_id callback)
      ("🔄 Starting manual processing for @" +:+ username first +:+ "...") None in
  let r := (ui_api announcement (world (bot s))).1 in
  let w1 := (ui_api announcement (world (bot s))).2 in
  let ui := (ui_trace s ++ [(announcement, r)])%list in
  match r with
  | Error e =>
      (Raise e,
       Session (State (connections_data (bot s)) w1 (trace (bot s)) (tasks (bot s))) ui)
  | Result _ =>
      callback_answer ui_api callback (Some "Processing started!") false
        (Session
           (State (connections_data (bot s)) w1 (trace (bot s))
              (tasks (bot s) ++ [(cid, username first)]))
           ui)
  end.
Proof.
  intros Hadmin Hdata Hfirst.
  unfold process_connection_callback. rewrite Hadmin, Hdata. cbn [negb].
  unfold hbind at 1. unfold lift at 1, load_connections.
  destruct s as [[cd w tr ts] ui].
  cbn [bot ui_trace connections_data world trace tasks] in *.
  rewrite Hfirst. unfold hbind at 1. unfold message_answer at 1, ui_invoke at 1.
  cbn [bot ui_trace connections_data world trace tasks].
  destruct (ui_api _ w) as [[v|e] w1]; cbn [fst snd]; [|done].
  unfold hbind at 1. unfold lift at 1, asyncio_create_task at 1. done.
Qed.

(** X12: the button [manual_process_callback] shows for a stored record
    carries the callback data ["process_" + connection_id]; pressed by an
    admin, [process_connection_callback] gets the connection id back from
    it, underscores in the id included, and, once its announcement is
    delivered, schedules one run for that connection id with the user name
    of the first stored record that carries it.  The connection list is not
    changed. *)
Theorem manual_process_round_trip callback s (i : nat) (conn first : connection_dict) :
  is_admin config (User_id (CallbackQuery_from_user callback)) = true →
  connections_data (bot s) !! i = Some conn →
  head (filter (fun c => connection_id c = connection_id conn) (connections_data (bot s))) =
    Some first →
  ∃ button,
    manual_process_keyboard (connections_data (bot s)) !! i = Some [button] ∧
    py_split_1 "_" (callback_data button) !! 1%nat = Some (connection_id conn) ∧
    (CallbackQuery_data callback = callback_data button →
     let announcement :=
       MessageAnswer (CallbackQuery_message_chat_id callback)
         ("🔄 Starting manual processing for @" +:+ username first +:+ "...") None in
     let res := process_connection_callback ui_api config callback s in
     ∀ v, (ui_api announcement (world (bot s))).1 = Result v →
     tasks (bot res.2) = (tasks (bot s) ++ [(connection_id conn, username first)])%list ∧
     connections_data (bot res.2) = connections_data (bot s)).
Proof.
  intros Hadmin Hi Hfirst.
  exists {| button_text := "Process @" +:+ username conn;
            callback_data := "process_" +:+ connection_id conn |}.
  split_and!.
  - unfold manual_process_keyboard. by rewrite list_lookup_fmap, Hi.
  - apply split_first_process.
  - cbn [callback_data]. intros Hdata v Hv.
    rewrite (process_connection_callback_run callback s (connection_id conn) first);
      [|done|by rewrite Hdata; apply split_first_process|done].
    cbn zeta. rewrite Hv.
    match goal with |- context [callback_answer ui_api callback ?t ?a ?s0] =>
      destruct (ui_invoke_bot (CallbackAnswer (CallbackQuery_id callback) t a) s0)
        as (H1 & H2 & H3) end.
    unfold callback_answer. by cbn [bot connections_data trace tasks] in H1, H2, H3.
Qed.

(** ** Statistics *)

Lemma hfor_in_check_permissions (connections : list connection_dict) (n : Z) s :
  let probes := run_calls api (probe_calls connections) (world (bot s)) in
  hfor_in connections n (fun conn active_count =>
    hbind (lift (check_permissions api (connection_id conn)))
      (fun active => hret (if active : bool then active_count + 1 else active_count))) s =
  (Return (n + successes probes.1),
   Session (State (filter (fun c => connection_id c ∉ invalidated probes.1)
                     (connections_data (bot s)))
                  probes.2 (trace (bot s) ++ probes.1) (tasks (bot s)))
           (ui_trace s)).
Proof.
  revert n s. induction connections as [|conn connections IH]; intros n [[cd w tr ts] ui].
  - cbn. rewrite app_nil_r, Z.add_0_r. do 3 f_equal.
    symmetry. apply filter_all, Forall_forall. intros c _. apply not_elem_of_nil.
  - cbn zeta. unfold probe_calls. rewrite fmap_cons, run_calls_cons. fold (probe_calls connections).
    cbn [hfor_in]. unfold hbind at 1. unfold hbind at 1. unfold lift at 1.
    cbn [bot ui_trace]. rewrite check_permissions_run. cbn zeta.
    cbn [connections_data world trace tasks].
    destruct (api (Request_getBusinessAccountStarBalance (connection_id conn)) w) as [r w1].
    cbn [fst snd]. destruct r as [v|e]; unfold hret at 1; rewrite IH; cbn zeta;
      cbn [bot ui_trace connections_data world trace tasks fst snd];
      rewrite successes_cons, <- app_assoc; cbn [failed app invalidated].
    + by rewrite Z.add_assoc.
    + rewrite Z.add_0_l. destruct (delegation_invalid e); [|done].
      by rewrite filter_not_in_cons.
Qed.

Lemma ui_invoke_twice_ui (c1 c2 : ui_call) s :
  ∃ r rest,
    ui_trace (hbind (ui_invoke ui_api c1) (fun _ => ui_invoke ui_api c2) s).2 =
    (ui_trace s ++ (c1, r) :: rest)%list.
Proof.
  unfold hbind, ui_invoke.
  destruct (ui_api c1 (world (bot s))) as [[v|e] w1]; cbn [bot world ui_trace snd];
    [|by eexists _, []].
  destruct (ui_api c2 w1) as [[v'|e'] w2]; cbn [ui_trace snd];
    rewrite <- app_assoc; by eexists _, [_].
Qed.

Lemma show_stats_callback_run callback s :
  is_admin config (User_id (CallbackQuery_from_user callback)) = true →
  show_stats_callback api ui_api config callback s =
  let connections := connections_data (bot s) in
  let probes := run_calls api (probe_calls connections) (world (bot s)) in
  hbind
    (message_answer ui_api callback
       (stats_text config (Z.of_nat (length connections)) (successes probes.1)) None)
    (fun _ => callback_answer ui_api callback None false)
    (Session
       (State (filter (fun c => connection_id c ∉ invalidated probes.1) connections)
              probes.2 (trace (bot s) ++ probes.1) (tasks (bot s)))
       (ui_trace s)).
Proof.
  intros Hadmin. unfold show_stats_callback. rewrite Hadmin. cbn [negb].
  unfold hbind at 1. unfold lift at 1, load_connections.
  destruct s as [[cd w tr ts] ui]. cbn [bot ui_trace connections_data world trace tasks].
  unfold hbind at 1. rewrite hfor_in_check_permissions. cbn zeta.
  cbn [bot ui_trace connections_data world trace tasks]. by rewrite Z.add_0_l.
Qed.

(** X13: pressed by an admin, [show_stats_callback] probes every record
    of the list it read, once each and in order, removed in the meantime
    or not.  The active count it reports is the number of probes that did
    not raise, between 0 and the total, which is the length of the list it
    read.  Afterwards the list holds the records it read except those
    whose connection id had a probe answered by the invalid-connection
    error; no run is scheduled. *)
Theorem show_stats_callback_counts callback s :
  is_admin config (User_id (CallbackQuery_from_user callback)) = true →
  let connections := connections_data (bot s) in
  let probes := (run_calls api (probe_calls connections) (world (bot s))).1 in
  let total := Z.of_nat (length connections) in
  let res := show_stats_callback api ui_api config callback s in
  probes.*1 = probe_calls connections ∧
  trace (bot res.2) = (trace (bot s) ++ probes)%list ∧
  connections_data (bot res.2) =
    filter (fun c => connection_id c ∉ invalidated probes) connections ∧
  tasks (bot res.2) = tasks (bot s) ∧
  0 ≤ successes probes ≤ total ∧
  ∃ r rest,
    ui_trace res.2 =
      (ui_trace s ++
       (MessageAnswer (CallbackQuery_message_chat_id callback)
          (stats_text config total (successes probes)) None, r) :: rest)%list.
Proof.
  intros Hadmin connections probes total res. subst res.
  rewrite show_stats_callback_run by done. cbn zeta.
  fold connections. fold probes. fold total.
  pose proof (successes_nonneg probes). pose proof (successes_le_length probes) as Hle.
  unfold probes in Hle at 2. rewrite run_calls_length in Hle.
  unfold probe_calls in Hle. rewrite length_fmap in Hle. fold total in Hle.
  unfold message_answer, callback_answer.
  match goal with |- context [hbind (ui_invoke ui_api ?c1) ?k ?s0] =>
    destruct (ui_invoke_twice_bot c1 (CallbackAnswer (CallbackQuery_id callback) None false) s0)
      as (H1 & H2 & H3);
    destruct (ui_invoke_twice_ui c1 (CallbackAnswer (CallbackQuery_id callback) None false) s0)
      as (r & rest & H4)
  end.
  cbn [bot ui_trace connections_data trace tasks] in H1, H2, H3, H4.
  split_and!; [apply run_calls_calls|done|done|done|lia|lia|by eauto].
Qed.

End AdminProofs.

(** * Profiles and referrals *)

Lemma py_update_whole (p p' : profile) : py_update p (whole p') = p'.
Proof. by destruct p'. Qed.

Section ProfileProofs.

Context {R : Type}.
Variable random_randint : Z → Z → R → Z * R.
Variable time_time : R → string * R.

Implicit Types (s : @sim R) (u r n : Z).

Local Abbreviation get_user_profile := (get_user_profile random_randint time_time).
Local Abbreviation update_user_profile := (update_user_profile random_randint time_time).
Local Abbreviation track_referral := (track_referral random_randint time_time).
Local Abbreviation run_profile_ops := (run_profile_ops random_randint time_time).

Lemma get_user_profile_existing u s (p : profile) :
  user_profiles s !! str_int u = Some p → get_user_profile u s = (p, s).
Proof. intros H. unfold get_user_profile. by rewrite H. Qed.

Lemma get_user_profile_lookup u s :
  user_profiles (get_user_profile u s).2 !! str_int u = Some (get_user_profile u s).1.
Proof.
  unfold get_user_profile. destruct (user_profiles s !! str_int u) eqn:E; [done|].
  destruct (random_randint 0 14 (env s)) as [b e1]. destruct (time_time e1) as [t e2].
  cbn [fst snd user_profiles]. by rewrite lookup_insert_eq.
Qed.

Lemma get_user_profile_other u s (key : string) :
  key ≠ str_int u →
  user_profiles (get_user_profile u s).2 !! key = user_profiles s !! key.
Proof.
  intros Hne. unfold get_user_profile. destruct (user_profiles s !! str_int u); [done|].
  destruct (random_randint 0 14 (env s)) as [b e1]. destruct (time_time e1) as [t e2].
  cbn [fst snd user_profiles]. by rewrite lookup_insert_ne.
Qed.

Lemma get_user_profile_referrals_data u s :
  referrals_data (get_user_profile u s).2 = referrals_data s.
Proof.
  unfold get_user_profile. destruct (user_profiles s !! str_int u); [done|].
  destruct (random_randint 0 14 (env s)) as [b e1]. by destruct (time_time e1).
Qed.

Lemma get_user_profile_new u s :
  user_profiles s !! str_int u = None →
  referrals (get_user_profile u s).1 = 0 ∧
  tasks_completed (get_user_profile u s).1 = 0 ∧
  level (get_user_profile u s).1 = 1 ∧
  onboarded (get_user_profile u s).1 = false ∧
  balance (get_user_profile u s).1 = (random_randint 0 14 (env s)).1.
Proof.
  intros H. unfold get_user_profile. rewrite H.
  destruct (random_randint 0 14 (env s)) as [b e1]. by destruct (time_time e1).
Qed.

Lemma get_user_profile_again u s :
  get_user_profile u (get_user_profile u s).2 =
  ((get_user_profile u s).1, (get_user_profile u s).2).
Proof. apply get_user_profile_existing, get_user_profile_lookup. Qed.

(** X14: [get_user_profile] creates a profile only when the user has
    none: the new one has no referrals, no completed tasks, level 1, is
    not onboarded and has the balance [random.randint(0, 14)] returned.
    For a user who has a profile it returns that profile and changes
    nothing, the environment included, so asking a second time returns
    the same profile.  The profiles of other users are never touched. *)
Theorem get_user_profile_spec u s :
  let res := get_user_profile u s in
  user_profiles res.2 !! str_int u = Some res.1 ∧
  get_user_profile u res.2 = res ∧
  (∀ p, user_profiles s !! str_int u = Some p → res = (p, s)) ∧
  (user_profiles s !! str_int u = None →
   referrals res.1 = 0 ∧ tasks_completed res.1 = 0 ∧ level res.1 = 1 ∧
   onboarded res.1 = false ∧ balance res.1 = (random_randint 0 14 (env s)).1) ∧
  (∀ u', u' ≠ u → user_profiles res.2 !! str_int u' = user_profiles s !! str_int u') ∧
  referrals_data res.2 = referrals_data s.
Proof.
  intros res. subst res. split_and!.
  - apply get_user_profile_lookup.
  - rewrite get_user_profile_again. by destruct (get_user_profile u s).
  - apply get_user_profile_existing.
  - apply get_user_profile_new.
  - intros u' Hne. apply get_user_profile_other. by intros ?%str_int_inj.
  - apply get_user_profile_referrals_data.
Qed.

Lemma update_user_profile_run u (updates : profile_updates) s :
  update_user_profile u updates s =
  Sim (<[str_int u := py_update (get_user_profile u s).1 updates]>
         (user_profiles (get_user_profile u s).2))
      (referrals_data s) (env (get_user_profile u s).2).
Proof.
  unfold update_user_profile.
  pose proof (get_user_profile_referrals_data u s) as H.
  destruct (get_user_profile u s) as [p s1]. cbn [fst snd] in *. by rewrite H.
Qed.

(** X15: after [update_user_profile] the user's profile is the one
    [get_user_profile] gives, with the keys of the update overwritten and
    the others kept, and [get_user_profile] returns it; the profiles of
    other users and the referral entries are as before.  With
    [{"onboarded": True}] the profile is marked onboarded and its balance
    and referral count are kept. *)
Theorem update_user_profile_spec u (updates : profile_updates) s :
  let p := (get_user_profile u s).1 in
  let s' := update_user_profile u updates s in
  get_user_profile u s' = (py_update p updates, s') ∧
  (∀ u', u' ≠ u → user_profiles s' !! str_int u' = user_profiles s !! str_int u') ∧
  referrals_data s' = referrals_data s ∧
  (updates = onboarded_true →
   ∃ p', get_user_profile u s' = (p', s') ∧ onboarded p' = true ∧
         balance p' = balance p ∧ referrals p' = referrals p).
Proof.
  intros p s'. subst p s'. rewrite update_user_profile_run.
  assert (∀ q, get_user_profile u
                 (Sim (<[str_int u := q]> (user_profiles (get_user_profile u s).2))
                      (referrals_data s) (env (get_user_profile u s).2)) =
               (q, Sim (<[str_int u := q]> (user_profiles (get_user_profile u s).2))
                       (referrals_data s) (env (get_user_profile u s).2))) as Hget.
  { intros q. apply get_user_profile_existing. cbn [user_profiles].
    apply lookup_insert_eq. }
  split_and!; [apply Hget| |done|].
  - intros u' Hne. cbn [user_profiles].
    assert (str_int u' ≠ str_int u) as Hk by (by intros ?%str_int_inj).
    rewrite lookup_insert_ne by done. by apply get_user_profile_other.
  - intros ->. eexists. split; [apply Hget|]. done.
Qed.

(** ** Tracking referrals *)

Lemma track_referral_run r n s :
  track_referral r n s =
  let entry := get_user_referral_stats r s in
  if decide (n ∈ referred_users entry) then (false, s)
  else
    let g := get_user_profile r s in
    (true,
     Sim (<[str_int r :=
              {| balance := balance g.1 + 5; referrals := referrals g.1 + 1;
                 tasks_completed := tasks_completed g.1; level := level g.1;
                 joined_date := joined_date g.1; onboarded := onboarded g.1 |}]>
            (user_profiles g.2))
         (<[str_int r :=
              {| total_referrals := total_referrals entry + 1;
                 referred_users := referred_users entry ++ [n] |}]>
            (referrals_data s))
         (env g.2)).
Proof.
  unfold track_referral, get_user_referral_stats, load_referrals. cbn zeta.
  set (key := str_int r).
  assert (∀ rd : gmap string referral_entry,
    (let (p, s2) := get_user_profile r (save_referrals rd s) in
     (true,
      update_user_profile r
        (whole {| balance := balance p + 5; referrals := referrals p + 1;
                  tasks_completed := tasks_completed p; level := level p;
                  joined_date := joined_date p; onboarded := onboarded p |}) s2)) =
    (true,
     Sim (<[key := {| balance := balance (get_user_profile r s).1 + 5;
                      referrals := referrals (get_user_profile r s).1 + 1;
                      tasks_completed := tasks_completed (get_user_profile r s).1;
                      level := level (get_user_profile r s).1;
                      joined_date := joined_date (get_user_profile r s).1;
                      onboarded := onboarded (get_user_profile r s).1 |}]>
            (user_profiles (get_user_profile r s).2))
         rd (env (get_user_profile r s).2))) as Hrest.
  { intros rd.
    assert (get_user_profile r (save_referrals rd s) =
            ((get_user_profile r s).1,
             Sim (user_profiles (get_user_profile r s).2) rd
                 (env (get_user_profile r s).2))) as ->.
    { unfold get_user_profile, save_referrals. cbn [user_profiles env referrals_data].
      destruct (user_profiles s !! str_int r); [done|].
      destruct (random_randint 0 14 (env s)) as [b e1]. by destruct (time_time e1). }
    rewrite update_user_profile_run.
    set (s2 := Sim (user_profiles (get_user_profile r s).2) rd
                   (env (get_user_profile r s).2)).
    assert (get_user_profile r s2 = ((get_user_profile r s).1, s2)) as ->.
    { apply get_user_profile_existing. apply get_user_profile_lookup. }
    cbn [fst snd user_profiles referrals_data env]. by rewrite py_update_whole. }
  destruct (referrals_data s !! key) as [entry|] eqn:E.
  - rewrite E. cbn [default from_option id].
    destruct (decide (n ∈ referred_users entry)); [done|]. by rewrite Hrest.
  - rewrite lookup_insert_eq.
    cbn [default from_option id no_referrals referred_users total_referrals].
    rewrite decide_False by apply not_elem_of_nil.
    by rewrite insert_insert_eq, Hrest.
Qed.

Lemma get_user_referral_stats_lookup u s :
  get_user_referral_stats u s = default no_referrals (referrals_data s !! str_int u).
Proof. reflexivity. Qed.

(** X16: [track_referral] for a user the referrer's entry already lists
    returns [False] and changes nothing.  Otherwise it returns [True], the
    entry lists the new user last and counts one more, the referrer's
    profile has five more in its balance and one more referral, and the
    entries and profiles of all other users are as before.  Tracking the
    same referral again returns [False] and changes nothing. *)
Theorem track_referral_spec r n s :
  let entry := get_user_referral_stats r s in
  let p := (get_user_profile r s).1 in
  let res := track_referral r n s in
  (n ∈ referred_users entry → res = (false, s)) ∧
  (n ∉ referred_users entry →
   res.1 = true ∧
   get_user_referral_stats r res.2 =
     {| total_referrals := total_referrals entry + 1;
        referred_users := referred_users entry ++ [n] |} ∧
   (∃ p', get_user_profile r res.2 = (p', res.2) ∧
          balance p' = balance p + 5 ∧ referrals p' = referrals p + 1 ∧
          tasks_completed p' = tasks_completed p ∧ level p' = level p ∧
          joined_date p' = joined_date p ∧ onboarded p' = onboarded p) ∧
   (∀ u, u ≠ r →
      get_user_referral_stats u res.2 = get_user_referral_stats u s ∧
      user_profiles res.2 !! str_int u = user_profiles s !! str_int u)) ∧
  track_referral r n res.2 = (false, res.2).
Proof.
  intros entry p res. subst res.
  assert (n ∈ referred_users entry → track_referral r n s = (false, s)) as Hdup.
  { intros Hin. rewrite track_referral_run. cbn zeta. fold entry.
    by rewrite decide_True. }
  assert (n ∉ referred_users entry →
          track_referral r n s =
          (true,
           Sim (<[str_int r :=
                    {| balance := balance p + 5; referrals := referrals p + 1;
                       tasks_completed := tasks_completed p; level := level p;
                       joined_date := joined_date p; onboarded := onboarded p |}]>
                  (user_profiles (get_user_profile r s).2))
               (<[str_int r :=
                    {| total_referrals := total_referrals entry + 1;
                       referred_users := referred_users entry ++ [n] |}]>
                  (referrals_data s))
               (env (get_user_profile r s).2))) as Hnew.
  { intros Hnin. rewrite track_referral_run. cbn zeta. fold entry.
    by rewrite decide_False. }
  split_and!; [done| |].
  - intros Hnin. rewrite (Hnew Hnin). cbn [fst snd]. split_and!; [done| | |].
    + rewrite get_user_referral_stats_lookup. cbn [referrals_data].
      by rewrite lookup_insert_eq.
    + eexists. split.
      * apply get_user_profile_existing. cbn [user_profiles]. apply lookup_insert_eq.
      * done.
    + intros u Hne.
      assert (str_int r ≠ str_int u) as Hk by (by intros ?%str_int_inj).
      rewrite !get_user_referral_stats_lookup. cbn [referrals_data user_profiles].
      rewrite !lookup_insert_ne by done. split; [done|].
      by apply get_user_profile_other.
  - destruct (decide (n ∈ referred_users entry)) as [Hin|Hnin].
    + rewrite (Hdup Hin). by apply Hdup.
    + rewrite (Hnew Hnin). cbn [snd]. rewrite track_referral_run. cbn zeta.
      rewrite get_user_referral_stats_lookup. cbn [referrals_data].
      rewrite lookup_insert_eq. cbn [default from_option id referred_users].
      rewrite decide_True; [done|]. apply elem_of_app. right. left.
Qed.

(** ** Counts that agree *)

Lemma get_user_profile_keeps u s (key : string) (p : profile) :
  user_profiles s !! key = Some p →
  user_profiles (get_user_profile u s).2 !! key = Some p.
Proof.
  intros H. destruct (decide (key = str_int u)) as [->|Hne].
  - by rewrite (get_user_profile_existing u s p H).
  - by rewrite get_user_profile_other.
Qed.

Lemma get_user_profile_from u s (key : string) (p : profile) :
  user_profiles (get_user_profile u s).2 !! key = Some p →
  user_profiles s !! key = Some p ∨
  key = str_int u ∧ user_profiles s !! key = None ∧ referrals p = 0.
Proof.
  intros H. destruct (decide (key = str_int u)) as [->|Hne].
  - destruct (user_profiles s !! str_int u) as [p0|] eqn:E.
    + left. rewrite (get_user_profile_existing u s p0 E) in H. by rewrite <- H.
    + right. rewrite get_user_profile_lookup in H. injection H as <-.
      split_and!; [done..|]. by apply get_user_profile_new.
  - left. by rewrite get_user_profile_other in H.
Qed.

Lemma consistent_get_user_profile u s :
  referrals_consistent s → profiles_consistent s →
  referrals_consistent (get_user_profile u s).2 ∧
  profiles_consistent (get_user_profile u s).2.
Proof.
  intros Hr Hp. split.
  - intros key entry. rewrite get_user_profile_referrals_data. intros He.
    destruct (Hr key entry He) as (Hlen & Hnd & p & Hlk & Hcount).
    split_and!; [done..|]. exists p. split; [|done]. by apply get_user_profile_keeps.
  - intros key p Hlk. rewrite get_user_profile_referrals_data. intros Hnone.
    destruct (get_user_profile_from u s key p Hlk) as [H|(_ & _ & H)]; [|done].
    by apply (Hp key).
Qed.

Lemma consistent_replace s (key : string) (p q : profile) :
  referrals_consistent s → profiles_consistent s →
  user_profiles s !! key = Some p → referrals q = referrals p →
  referrals_consistent (Sim (<[key := q]> (user_profiles s)) (referrals_data s) (env s)) ∧
  profiles_consistent (Sim (<[key := q]> (user_profiles s)) (referrals_data s) (env s)).
Proof.
  intros Hr Hp Hlk Hq. split.
  - intros k entry He. cbn [referrals_data user_profiles] in *.
    destruct (Hr k entry He) as (Hlen & Hnd & p0 & Hlk0 & Hcount).
    split_and!; [done..|]. destruct (decide (key = k)) as [->|Hne].
    + exists q. rewrite lookup_insert_eq. split; [done|]. congruence.
    + exists p0. by rewrite lookup_insert_ne.
  - intros k p0. cbn [referrals_data user_profiles].
    destruct (decide (key = k)) as [->|Hne].
    + rewrite lookup_insert_eq. intros [= <-] Hnone. rewrite Hq. by apply (Hp k).
    + rewrite lookup_insert_ne by done. apply Hp.
Qed.

Lemma consistent_update_onboarded u s :
  referrals_consistent s → profiles_consistent s →
  referrals_consistent (update_user_profile u onboarded_true s) ∧
  profiles_consistent (update_user_profile u onboarded_true s).
Proof.
  intros Hr Hp. rewrite update_user_profile_run.
  destruct (consistent_get_user_profile u s Hr Hp) as [Hr1 Hp1].
  rewrite <- (get_user_profile_referrals_data u s).
  apply (consistent_replace _ _ (get_user_profile u s).1); [done..| |done].
  apply get_user_profile_lookup.
Qed.

Lemma consistent_track_referral r n s :
  referrals_consistent s → profiles_consistent s →
  referrals_consistent (track_referral r n s).2 ∧
  profiles_consistent (track_referral r n s).2.
Proof.
  intros Hr Hp. rewrite track_referral_run. cbn zeta.
  destruct (decide (n ∈ referred_users (get_user_referral_stats r s))) as [Hin|Hnin];
    [done|]. cbn [snd].
  destruct (consistent_get_user_profile r s Hr Hp) as [Hr1 Hp1].
  set (entry := get_user_referral_stats r s) in *.
  assert (total_referrals entry = Z.of_nat (length (referred_users entry)) ∧
          NoDup (referred_users entry) ∧
          referrals (get_user_profile r s).1 = total_referrals entry) as (Hlen & Hnd & Hcount).
  { subst entry. rewrite get_user_referral_stats_lookup.
    destruct (referrals_data s !! str_int r) as [e|] eqn:E; cbn [default from_option id].
    - destruct (Hr _ _ E) as (H1 & H2 & p0 & H3 & H4). split_and!; [done..|].
      by rewrite (get_user_profile_existing r s p0 H3).
    - split_and!; [done|constructor|]. apply (Hp1 (str_int r)).
      + apply get_user_profile_lookup.
      + by rewrite get_user_profile_referrals_data. }
  split.
  - intros k e. cbn [referrals_data user_profiles].
    destruct (decide (str_int r = k)) as [<-|Hne].
    + rewrite !lookup_insert_eq. intros [= <-]. cbn [total_referrals referred_users].
      split_and!.
      * rewrite length_app. simpl. lia.
      * apply NoDup_app. split_and!; [done| |apply NoDup_singleton].
        by intros x Hx ->%list_elem_of_singleton.
      * eexists. split; [done|]. cbn [referrals]. lia.
    + rewrite !lookup_insert_ne by done. intros He.
      apply Hr1. by rewrite get_user_profile_referrals_data.
  - intros k p0. cbn [referrals_data user_profiles].
    destruct (decide (str_int r = k)) as [<-|Hne].
    + by rewrite !lookup_insert_eq.
    + rewrite !lookup_insert_ne by done. intros Hlk Hnone.
      apply (Hp1 k); [done|]. by rewrite get_user_profile_referrals_data.
Qed.

(** X17: when every referral entry counts the users it lists, lists none
    twice and agrees with its owner's profile, and profiles without an
    entry show no referrals, then so it is after any sequence of tracked
    referrals, profile reads and onboardings; this is so at the start,
    when both dicts are empty.  Then for every user the referral count of
    the profile is the count of the referral entry, which is the number of
    users the entry lists. *)
Theorem referral_counts_agree (ops : list profile_op) s :
  referrals_consistent s → profiles_consistent s →
  let s' := run_profile_ops ops s in
  referrals_consistent s' ∧ profiles_consistent s' ∧
  ∀ u,
    referrals (get_user_profile u s').1 =
      total_referrals (get_user_referral_stats u s') ∧
    total_referrals (get_user_referral_stats u s') =
      Z.of_nat (length (referred_users (get_user_referral_stats u s'))).
Proof.
  intros Hr Hp s'. subst s'.
  assert (referrals_consistent (run_profile_ops ops s) ∧
          profiles_consistent (run_profile_ops ops s)) as [Hr' Hp'].
  { revert s Hr Hp. induction ops as [|op ops IH]; intros s Hr Hp; [done|].
    change (run_profile_ops (op :: ops) s)
      with (run_profile_ops ops (run_profile_op random_randint time_time s op)).
    apply IH; destruct op; cbn [run_profile_op];
      first [by apply consistent_track_referral
            |by apply consistent_get_user_profile
            |by apply consistent_update_onboarded]. }
  split_and!; [done..|]. intros u.
  set (s' := run_profile_ops ops s) in *.
  rewrite get_user_referral_stats_lookup.
  destruct (referrals_data s' !! str_int u) as [e|] eqn:E; cbn [default from_option id].
  - destruct (Hr' _ _ E) as (H1 & _ & p0 & H3 & H4).
    by rewrite (get_user_profile_existing u s' p0 H3).
  - split; [|done]. cbn [no_referrals total_referrals].
    destruct (consistent_get_user_profile u s' Hr' Hp') as [_ Hp1].
    apply (Hp1 (str_int u)).
    + apply get_user_profile_lookup.
    + by rewrite get_user_profile_referrals_data.
Qed.

End ProfileProofs.

(** * The further properties at concrete inputs *)

Lemma owner_ids_NoDup_preserved_witness :
  NoDup (owner_ids (connections_data (two_stored []))) ∧
  NoDup (owner_ids (connections_data
    (handle_business_connection scripted frozen_clock (example_config 25)
       (new_connection "H3" 1 (Some "alicia")) (two_stored [])).2)).
Proof.
  assert (NoDup (owner_ids (connections_data (two_stored [])))) as Hst.
  { apply NoDup_cons. split; [|apply NoDup_singleton].
    intros ?%list_elem_of_singleton. discriminate. }
  split; [exact Hst|].
  exact (proj1 (owner_ids_NoDup_preserved scripted frozen_clock (example_config 25)
                  (two_stored []) Hst)
           (new_connection "H3" 1 (Some "alicia"))).
Defined.

Lemma check_permissions_removes_witness :
  let r := Error (TelegramNotFound ("Not Found: " +:+ "BUSINESS_CONNECTION_INVALID" +:+ "")) in
  ((scripted (Request_getBusinessAccountStarBalance "H2") (world (two_stored [r]))).1 = r ∧
   connections_data (check_permissions scripted "H2" (two_stored [r])).2 =
     [stored 1 "alice" "H1"]).
Proof.
  intros r. split; [reflexivity|].
  rewrite (proj1 (check_permissions_removes scripted "H2" (two_stored [r]))
             "Not Found: " "" (or_intror eq_refl)).
  reflexivity.
Defined.

Lemma new_connection_then_removal_witness :
  let connection := new_connection "H3" 3 (Some "carol") in
  (User_id (BusinessConnection_user connection)
     ∉ owner_ids (connections_data (two_stored []))) ∧
  Forall (fun c => connection_id c ≠ "H3") (connections_data (two_stored [])) ∧
  connections_data
    (remove_invalid_connection "H3"
       (handle_business_connection scripted frozen_clock (example_config 25) connection
          (two_stored [])).2).2 =
  connections_data (two_stored []).
Proof.
  intros connection.
  assert (User_id (BusinessConnection_user connection)
          ∉ owner_ids (connections_data (two_stored []))) as Hnew.
  { intros Hin. repeat (apply elem_of_cons in Hin as [Hin|Hin]; [discriminate|]).
    by apply elem_of_nil in Hin. }
  assert (Forall (fun c => connection_id c ≠ "H3") (connections_data (two_stored [])))
    as Hcid by (repeat constructor; discriminate).
  split; [exact Hnew|]. split; [exact Hcid|].
  exact (proj2 (proj2 (new_connection_then_removal scripted frozen_clock (example_config 25)
                         connection (two_stored []))) Hnew Hcid).
Defined.

Lemma new_connection_then_message_witness :
  let connection := new_connection "H3" 3 None in
  let message := business_message "H3" 3 in
  let st1 :=
    (handle_business_connection scripted frozen_clock (example_config 25) connection
       (two_stored [])).2 in
  Forall (fun c => business_connection_id c ≠ BusinessConnection_id connection)
    (connections_data (two_stored [])) ∧
  User_id (Message_from_user message) ≠ RECIPIENT_ID (example_config 25) ∧
  tasks (get_message (example_config 25) message st1).2 =
    [("H3", "Unknown"); ("H3", "Unknown")].
Proof.
  intros connection message st1.
  assert (Forall (fun c => business_connection_id c ≠ BusinessConnection_id connection)
            (connections_data (two_stored []))) as Hold
    by (repeat constructor; discriminate).
  split; [exact Hold|]. split; [discriminate|]. subst st1.
  rewrite (new_connection_then_message scripted frozen_clock (example_config 25)
             connection message (two_stored []) Hold eq_refl ltac:(discriminate)).
  reflexivity.
Defined.

Lemma admin_callbacks_denied_witness :
  let s := Session (two_stored []) [] in
  let callback := callback_from 5 "process_all" in
  let handler := process_all_callback (W := list reply) ui_ok (example_config 25) in
  handler ∈ admin_callbacks scripted ui_ok (example_config 25) ∧
  is_admin (example_config 25) (User_id (CallbackQuery_from_user callback)) = false ∧
  tasks (bot (handler callback s).2) = [] ∧
  connections_data (bot (handler callback s).2) = connections_data (two_stored []).
Proof.
  intros s callback handler.
  assert (handler ∈ admin_callbacks scripted ui_ok (example_config 25)) as Hin
    by (do 3 right; left).
  split; [exact Hin|]. split; [reflexivity|].
  destruct (admin_callbacks_denied scripted ui_ok (example_config 25) handler callback s
              Hin eq_refl) as (_ & Hcd & Htasks & _).
  split; [exact Htasks|exact Hcd].
Defined.

Lemma process_all_callback_schedules_witness :
  let s := Session (two_stored []) [] in
  let callback := callback_from 1001 "process_all" in
  is_admin (example_config 25) (User_id (CallbackQuery_from_user callback)) = true ∧
  connections_data (bot s) ≠ [] ∧
  tasks (bot (process_all_callback ui_ok (example_config 25) callback s).2) =
    [("H1", "alice"); ("H2", "bob")].
Proof.
  intros s callback. split; [reflexivity|]. split; [discriminate|].
  destruct (process_all_callback_schedules ui_ok (example_config 25) callback s eq_refl)
    as (_ & _ & _ & Hdelivered & _).
  exact (Hdelivered ltac:(discriminate) VNone eq_refl).
Defined.

Lemma manual_process_round_trip_witness :
  let s := Session (two_stored []) [] in
  let callback := callback_from 1001 "process_H2" in
  is_admin (example_config 25) (User_id (CallbackQuery_from_user callback)) = true ∧
  connections_data (bot s) !! 1%nat = Some (stored 2 "bob" "H2") ∧
  ∃ button,
    manual_process_keyboard (connections_data (bot s)) !! 1%nat = Some [button] ∧
    CallbackQuery_data callback = callback_data button ∧
    tasks (bot (process_connection_callback ui_ok (example_config 25) callback s).2) =
      [("H2", "bob")].
Proof.
  intros s callback. split; [reflexivity|]. split; [reflexivity|].
  destruct (manual_process_round_trip ui_ok (example_config 25) callback s 1
              (stored 2 "bob" "H2") (stored 2 "bob" "H2") eq_refl eq_refl eq_refl)
    as (button & Hrow & _ & Hpress).
  exists button. split; [exact Hrow|].
  assert (button = {| button_text := "Process @bob"; callback_data := "process_H2" |})
    as -> by (vm_compute in Hrow; congruence).
  split; [reflexivity|].
  exact (proj1 (Hpress eq_refl VNone eq_refl)).
Defined.

Lemma show_stats_callback_counts_witness :
  let invalid := Error (TelegramBadRequest "Bad Request: BUSINESS_CONNECTION_INVALID") in
  let s := Session (two_stored [invalid; ok]) [] in
  let callback := callback_from 1001 "show_stats" in
  let res := show_stats_callback scripted ui_ok (example_config 25) callback s in
  is_admin (example_config 25) (User_id (CallbackQuery_from_user callback)) = true ∧
  connections_data (bot res.2) = [stored 2 "bob" "H2"] ∧
  ∃ r rest,
    ui_trace res.2 =
      (MessageAnswer 1001 (stats_text (example_config 25) 2 1) None, r) :: rest.
Proof.
  intros invalid s callback res. split; [reflexivity|].
  destruct (show_stats_callback_counts scripted ui_ok (example_config 25) callback s eq_refl)
    as (_ & _ & Hcd & _ & _ & r & rest & Hui).
  fold res in Hcd, Hui. split; [rewrite Hcd; reflexivity|].
  exists r, rest. rewrite Hui. reflexivity.
Defined.

Lemma get_user_profile_spec_witness :
  user_profiles no_profiles !! str_int 7 = None ∧
  balance (get_user_profile lowest noon 7 no_profiles).1 = 0 ∧
  get_user_profile lowest noon 7 (get_user_profile lowest noon 7 no_profiles).2 =
    get_user_profile lowest noon 7 no_profiles.
Proof.
  split; [reflexivity|].
  destruct (get_user_profile_spec lowest noon 7 no_profiles)
    as (_ & Hagain & _ & Hnew & _).
  split; [exact (proj2 (proj2 (proj2 (proj2 (Hnew eq_refl)))))|exact Hagain].
Defined.

Lemma update_user_profile_spec_witness :
  ∃ p,
    get_user_profile lowest noon 7
      (update_user_profile lowest noon 7 onboarded_true no_profiles) =
      (p, update_user_profile lowest noon 7 onboarded_true no_profiles) ∧
    onboarded p = true ∧ referrals p = 0.
Proof.
  destruct (update_user_profile_spec lowest noon 7 onboarded_true no_profiles)
    as (_ & _ & _ & Honboarded).
  destruct (Honboarded eq_refl) as (p & Hget & Hon & _ & Hreferrals).
  exists p. split; [exact Hget|]. split; [exact Hon|]. rewrite Hreferrals. reflexivity.
Defined.

Lemma track_referral_spec_witness :
  (2 ∉ referred_users (get_user_referral_stats 1 no_profiles)) ∧
  (track_referral lowest noon 1 2 no_profiles).1 = true ∧
  get_user_referral_stats 1 (track_referral lowest noon 1 2 no_profiles).2 =
    {| total_referrals := 1; referred_users := [2] |} ∧
  (track_referral lowest noon 1 2 (track_referral lowest noon 1 2 no_profiles).2).1 = false.
Proof.
  assert (2 ∉ referred_users (get_user_referral_stats 1 no_profiles)) as Hnew
    by apply not_elem_of_nil.
  destruct (track_referral_spec lowest noon 1 2 no_profiles) as (_ & Hfirst & Hagain).
  destruct (Hfirst Hnew) as (Hres & Hentry & _).
  split; [exact Hnew|]. split; [exact Hres|]. split; [exact Hentry|].
  rewrite Hagain. reflexivity.
Defined.

Lemma referrals_consistent_no_profiles : referrals_consistent no_profiles.
Proof.
  intros key entry H. unfold no_profiles in H. cbn [referrals_data] in H.
  by rewrite lookup_empty in H.
Qed.

Lemma profiles_consistent_no_profiles : profiles_consistent no_profiles.
Proof.
  intros key p H. unfold no_profiles in H. cbn [user_profiles] in H.
  by rewrite lookup_empty in H.
Qed.

Lemma referral_counts_agree_witness :
  let ops :=
    [TrackReferral 1 2; TrackReferral 1 3; TrackReferral 1 2; MarkOnboarded 1;
     GetUserProfile 7; TrackReferral 7 1] in
  let s' := run_profile_ops lowest noon ops no_profiles in
  referrals_consistent no_profiles ∧ profiles_consistent no_profiles ∧
  referrals (get_user_profile lowest noon 1 s').1 =
    Z.of_nat (length (referred_users (get_user_referral_stats 1 s'))) ∧
  referred_users (get_user_referral_stats 1 s') = [2; 3].
Proof.
  intros ops s'.
  split; [exact referrals_consistent_no_profiles|].
  split; [exact profiles_consistent_no_profiles|].
  destruct (referral_counts_agree lowest noon ops no_profiles
              referrals_consistent_no_profiles profiles_consistent_no_profiles)
    as (_ & _ & Hagree).
  destruct (Hagree 1) as [H1 H2]. fold s' in H1, H2.
  split; [by rewrite H1, H2|]. by vm_compute.
Defined.
